(** * axios-playwright-adapter: a shallow embedding and its properties

    The adapter routes the requests of an axios-style client and of a
    fetch-style client through Playwright's [APIRequestContext.fetch].
    This file embeds [src/utils/shared.ts], [src/utils/request.ts],
    [src/utils/response.ts], [src/axios-adapter.ts] and
    [src/fetch-adapter.ts] and proves properties of them.

    Conventions of the embedding:
    - a JavaScript string is a [string] (a sequence of bytes, UTF-8 for
      text outside ASCII); case mapping acts on the ASCII letters;
    - a [number] is a [Z]: the code compares numbers with zero, passes
      them on and prints status codes, which are integral;
    - a JavaScript object used as a record of named values is a
      [gmap string _]; ordered collections with duplicates ([FormData],
      [URLSearchParams], [Headers]) are association lists;
    - an [async] function is a computation in the monad [Async.M], which
      threads the trace of calls made on the external collaborators (the
      executor and the body accessors of its response) and yields either
      a value or the thrown value;
    - the collaborators are taken through their interfaces: the executor
      is a function from the URL and the options to what the call settles
      with, its response gives what each accessor settles with, and
      [validateStatus] is a total predicate on the status. *)

From Stdlib Require Import ZArith Ascii String DecimalString.
From stdpp Require Import gmap strings list fin_maps.

Set Warnings "-register-all".
Local Open Scope string_scope.

(** ** Strings as JavaScript uses them *)

Module JsString.

Definition code (c : ascii) : nat := nat_of_ascii c.

Definition between (lo hi : nat) (c : ascii) : bool :=
  Nat.leb lo (code c) && Nat.leb (code c) hi.

Definition isLower : ascii -> bool := between 97 122.
Definition isUpper : ascii -> bool := between 65 90.
Definition isDigit : ascii -> bool := between 48 57.

Definition lowerChar (c : ascii) : ascii :=
  if isUpper c then ascii_of_nat (code c + 32) else c.

Definition upperChar (c : ascii) : ascii :=
  if isLower c then ascii_of_nat (code c - 32) else c.

Fixpoint mapChars (f : ascii -> ascii) (s : string) : string :=
  match s with
  | EmptyString => EmptyString
  | String c s' => String (f c) (mapChars f s')
  end.

(** [s.toLowerCase()] and [s.toUpperCase()] *)
Definition toLowerCase : string -> string := mapChars lowerChar.
Definition toUpperCase : string -> string := mapChars upperChar.

(** [s.startsWith(p)] *)
Fixpoint startsWith (p s : string) : bool :=
  match p, s with
  | EmptyString, _ => true
  | String a p', String b s' => if ascii_dec a b then startsWith p' s' else false
  | String _ _, EmptyString => false
  end.

(** [s.includes(p)] *)
Fixpoint includes (p s : string) : bool :=
  startsWith p s ||
  match s with
  | EmptyString => false
  | String _ s' => includes p s'
  end.

(** A string is falsy exactly when it is empty. *)
Definition nonEmpty (s : string) : bool :=
  match s with EmptyString => false | String _ _ => true end.

(** [a || b] on strings *)
Definition orElse (a b : string) : string := if nonEmpty a then a else b.

Definition slash : ascii := "/"%char.

Definition isSlash (c : ascii) : bool := if ascii_dec c slash then true else false.

(** [s.replace(/^\/+/, '')]: the leading run of slashes is removed. *)
Fixpoint stripLeadingSlashes (s : string) : string :=
  match s with
  | String c s' => if isSlash c then stripLeadingSlashes s' else s
  | EmptyString => EmptyString
  end.

(** [s.replace(/\/+$/, '')]: the leftmost match of a run of slashes that
    reaches the end of the string is the whole trailing run. *)
Fixpoint stripTrailingSlashes (s : string) : string :=
  match s with
  | EmptyString => EmptyString
  | String c s' =>
      match stripTrailingSlashes s' with
      | EmptyString => if isSlash c then EmptyString else String c EmptyString
      | r => String c r
      end
  end.

(** Decimal printing of an integral number, as [String(n)] and a template
    literal do. *)
Definition ofZ (n : Z) : string := NilZero.string_of_int (Z.to_int n).

Definition ofNat (n : nat) : string := NilZero.string_of_uint (Nat.to_uint n).

End JsString.

(** ** Regular expressions, as far as the source uses them

    [RegExp.prototype.test] on a pattern anchored with [^] asks whether
    some prefix of the input is matched; derivatives decide that. *)

Module Regex.

Inductive re : Type :=
| Never
| Eps
| Class (p : ascii -> bool)
| Seq (r s : re)
| Alt (r s : re)
| Star (r : re).

Definition Chr (c : ascii) : re :=
  Class (fun x => if ascii_dec x c then true else false).

(** [(r)?] *)
Definition Opt (r : re) : re := Alt r Eps.

Fixpoint nullable (r : re) : bool :=
  match r with
  | Never => false
  | Eps => true
  | Class _ => false
  | Seq r s => nullable r && nullable s
  | Alt r s => nullable r || nullable s
  | Star _ => true
  end.

Fixpoint deriv (c : ascii) (r : re) : re :=
  match r with
  | Never => Never
  | Eps => Never
  | Class p => if p c then Eps else Never
  | Seq r s =>
      if nullable r then Alt (Seq (deriv c r) s) (deriv c s)
      else Seq (deriv c r) s
  | Alt r s => Alt (deriv c r) (deriv c s)
  | Star r => Seq (deriv c r) (Star r)
  end.

(** [/^r/.test(s)] *)
Fixpoint testAnchored (r : re) (s : string) : bool :=
  nullable r ||
  match s with
  | EmptyString => false
  | String c s' => testAnchored (deriv c r) s'
  end.

(** The language of an expression, to state what [testAnchored] decides. *)
Inductive matches : re -> string -> Prop :=
| MEps : matches Eps EmptyString
| MClass p c : p c = true -> matches (Class p) (String c EmptyString)
| MSeq r s u v : matches r u -> matches s v -> matches (Seq r s) (u +:+ v)
| MAltL r s u : matches r u -> matches (Alt r s) u
| MAltR r s u : matches s u -> matches (Alt r s) u
| MStarNil r : matches (Star r) EmptyString
| MStarCons r u v :
    matches r u -> matches (Star r) v -> matches (Star r) (u +:+ v).

End Regex.

(** ** [src/utils/shared.ts] *)

(** The class [[a-z]] under the [i] flag. *)
Definition isSchemeStart (c : ascii) : bool :=
  JsString.isLower c || JsString.isUpper c.

(** The class [[a-z\d+\-.]] under the [i] flag. *)
Definition isSchemeChar (c : ascii) : bool :=
  JsString.isLower c || JsString.isUpper c || JsString.isDigit c ||
  (if ascii_dec c "+"%char then true else false) ||
  (if ascii_dec c "-"%char then true else false) ||
  (if ascii_dec c "."%char then true else false).

(** [/^([a-z][a-z\d+\-.]*:)?\/\//i] *)
Definition ABSOLUTE_URL_REGEX : Regex.re :=
  Regex.Seq
    (Regex.Opt
       (Regex.Seq (Regex.Class isSchemeStart)
          (Regex.Seq (Regex.Star (Regex.Class isSchemeChar))
             (Regex.Chr ":"%char))))
    (Regex.Seq (Regex.Chr "/"%char) (Regex.Chr "/"%char)).

Definition isAbsoluteURL (url : string) : bool :=
  Regex.testAnchored ABSOLUTE_URL_REGEX url.

Definition combineURLs (baseURL relativeURL : string) : string :=
  if negb (JsString.nonEmpty relativeURL) then baseURL
  else JsString.stripTrailingSlashes baseURL +:+ "/" +:+
       JsString.stripLeadingSlashes relativeURL.

Definition statusTexts : list (Z * string) :=
  [ (100%Z, "Continue"); (101%Z, "Switching Protocols");
    (200%Z, "OK"); (201%Z, "Created"); (202%Z, "Accepted");
    (204%Z, "No Content");
    (301%Z, "Moved Permanently"); (302%Z, "Found"); (304%Z, "Not Modified");
    (400%Z, "Bad Request"); (401%Z, "Unauthorized"); (403%Z, "Forbidden");
    (404%Z, "Not Found"); (405%Z, "Method Not Allowed");
    (408%Z, "Request Timeout"); (409%Z, "Conflict"); (410%Z, "Gone");
    (422%Z, "Unprocessable Entity"); (429%Z, "Too Many Requests");
    (500%Z, "Internal Server Error"); (501%Z, "Not Implemented");
    (502%Z, "Bad Gateway"); (503%Z, "Service Unavailable");
    (504%Z, "Gateway Timeout") ].

Fixpoint lookupStatus (table : list (Z * string)) (status : Z) : option string :=
  match table with
  | [] => None
  | (k, v) :: rest => if Z.eqb k status then Some v else lookupStatus rest status
  end.

Definition getStatusText (status : Z) : string :=
  match lookupStatus statusTexts status with
  | Some t => JsString.orElse t "Unknown"
  | None => "Unknown"
  end.

(** ** JavaScript values

    The values a request descriptor can carry.  A [Blob] with a file name
    is a [File]; a [VBuffer] is a Node [Buffer], a [VArrayBuffer] the
    [ArrayBuffer] under one. *)

Record Blob : Type := mkBlob {
  blob_name : option string;
  blob_type : string;
  blob_bytes : list Byte.byte;
}.

Inductive FormDataEntryValue : Type :=
| FDString (s : string)
| FDBlob (b : Blob).

Inductive JsValue : Type :=
| VUndefined
| VNull
| VBool (b : bool)
| VNum (n : Z)
| VStr (s : string)
| VArray (items : list JsValue)
| VObject (props : gmap string JsValue)
| VBuffer (bytes : list Byte.byte)
| VArrayBuffer (bytes : list Byte.byte)
| VBlob (b : Blob)
| VFormData (entries : list (string * FormDataEntryValue))
| VURLSearchParams (pairs : list (string * string)).

Inductive JsType : Type :=
| TUndefined | TBoolean | TNumber | TString | TObject.

Module Js.

(** [typeof v] *)
Definition typeOf (v : JsValue) : JsType :=
  match v with
  | VUndefined => TUndefined
  | VBool _ => TBoolean
  | VNum _ => TNumber
  | VStr _ => TString
  | _ => TObject
  end.

Definition isObjectType (v : JsValue) : bool :=
  match typeOf v with TObject => true | _ => false end.

(** [v === undefined || v === null] *)
Definition isNullish (v : JsValue) : bool :=
  match v with VUndefined | VNull => true | _ => false end.

(** The truth value of [v] in a condition. *)
Definition truthy (v : JsValue) : bool :=
  match v with
  | VUndefined | VNull => false
  | VBool b => b
  | VNum n => negb (Z.eqb n 0)
  | VStr s => JsString.nonEmpty s
  | _ => true
  end.

(** [Buffer.isBuffer(v)] *)
Definition isBuffer (v : JsValue) : bool :=
  match v with VBuffer _ => true | _ => false end.

Fixpoint join (sep : string) (l : list string) : string :=
  match l with
  | [] => EmptyString
  | [x] => x
  | x :: rest => x +:+ sep +:+ join sep rest
  end.

Definition hexDigit (n : nat) : ascii :=
  if Nat.ltb n 10 then ascii_of_nat (48 + n) else ascii_of_nat (55 + n).

Definition hexValue (c : ascii) : option nat :=
  if JsString.isDigit c then Some (JsString.code c - 48)
  else if JsString.between 65 70 c then Some (JsString.code c - 55)
  else if JsString.between 97 102 c then Some (JsString.code c - 87)
  else None.

(** The [application/x-www-form-urlencoded] byte serializer. *)
Definition urlencodeChar (c : ascii) : string :=
  if JsString.isLower c || JsString.isUpper c || JsString.isDigit c ||
     (if ascii_dec c "*"%char then true else false) ||
     (if ascii_dec c "-"%char then true else false) ||
     (if ascii_dec c "."%char then true else false) ||
     (if ascii_dec c "_"%char then true else false)
  then String c EmptyString
  else if ascii_dec c " "%char then "+"
  else String "%"%char
         (String (hexDigit (JsString.code c / 16))
            (String (hexDigit (JsString.code c mod 16)) EmptyString)).

Fixpoint urlencode (s : string) : string :=
  match s with
  | EmptyString => EmptyString
  | String c s' => urlencodeChar c +:+ urlencode s'
  end.

(** [params.toString()] of a [URLSearchParams] *)
Definition serializeQuery (pairs : list (string * string)) : string :=
  join "&" (List.map (fun kv => urlencode (fst kv) +:+ "=" +:+ urlencode (snd kv)) pairs).

Fixpoint percentDecode (s : string) : string :=
  match s with
  | EmptyString => EmptyString
  | String c rest =>
      if ascii_dec c "%"%char then
        match rest with
        | String h (String l rest') =>
            match hexValue h, hexValue l with
            | Some a, Some b => String (ascii_of_nat (16 * a + b)) (percentDecode rest')
            | _, _ => String c (percentDecode rest)
            end
        | _ => String c (percentDecode rest)
        end
      else String c (percentDecode rest)
  end.

Definition plusToSpace (c : ascii) : ascii :=
  if ascii_dec c "+"%char then " "%char else c.

Definition decodeComponent (s : string) : string :=
  percentDecode (JsString.mapChars plusToSpace s).

(** [s.split(sep)] for a one-character separator *)
Fixpoint split (sep : ascii) (s : string) : list string :=
  match s with
  | EmptyString => [EmptyString]
  | String c s' =>
      if ascii_dec c sep then EmptyString :: split sep s'
      else match split sep s' with
           | [] => [String c EmptyString]
           | w :: ws => String c w :: ws
           end
  end.

(** The part before the first [sep], and the part after it when there is one. *)
Fixpoint cut (sep : ascii) (s : string) : string * string :=
  match s with
  | EmptyString => (EmptyString, EmptyString)
  | String c s' =>
      if ascii_dec c sep then (EmptyString, s')
      else let (a, b) := cut sep s' in (String c a, b)
  end.

(** [new URLSearchParams(s)] for a string [s]: a leading [?] is dropped,
    the rest is split at [&], empty pieces are skipped, each piece is cut
    at its first [=] and both halves are decoded. *)
Definition parseQuery (s : string) : list (string * string) :=
  let s' := match s with
            | String c rest => if ascii_dec c "?"%char then rest else s
            | EmptyString => s
            end in
  List.map (fun piece => let (k, v) := cut "="%char piece in
                         (decodeComponent k, decodeComponent v))
    (List.filter JsString.nonEmpty (split "&"%char s')).

(** [String(v)] *)
Fixpoint toString (v : JsValue) : string :=
  match v with
  | VUndefined => "undefined"
  | VNull => "null"
  | VBool true => "true"
  | VBool false => "false"
  | VNum n => JsString.ofZ n
  | VStr s => s
  | VArray items =>
      join "," (List.map (fun x => match x with
                                   | VUndefined | VNull => EmptyString
                                   | _ => toString x
                                   end) items)
  | VObject _ => "[object Object]"
  | VBuffer bytes => string_of_list_byte bytes
  | VArrayBuffer _ => "[object ArrayBuffer]"
  | VBlob b => match blob_name b with
               | Some _ => "[object File]"
               | None => "[object Blob]"
               end
  | VFormData _ => "[object FormData]"
  | VURLSearchParams pairs => serializeQuery pairs
  end.

Definition charEntries (s : string) : list (string * JsValue) :=
  imap (fun i c => (JsString.ofNat i, VStr (String c EmptyString)))
    (list_ascii_of_string s).

(** [Object.entries(v)] for a value that is neither [undefined] nor [null] *)
Definition entries (v : JsValue) : list (string * JsValue) :=
  match v with
  | VObject props => map_to_list props
  | VArray items => imap (fun i x => (JsString.ofNat i, x)) items
  | VStr s => charEntries s
  | VBuffer bytes =>
      imap (fun i b => (JsString.ofNat i, VNum (Z.of_N (Byte.to_N b)))) bytes
  | _ => []
  end.

(** [Object.fromEntries(pairs)]: a later pair overwrites an earlier one
    with the same key. *)
Definition fromEntries {V : Type} (pairs : list (string * V)) : gmap string V :=
  foldl (fun acc kv => <[fst kv := snd kv]> acc) ∅ pairs.

End Js.

(** ** The request descriptor ([InternalAxiosRequestConfig]) *)

(** [config.headers] is an [AxiosHeaders] instance, which has [toJSON] and
    [get], or a plain object, which has neither. *)
Inductive ConfigHeaders : Type :=
| AxiosHeaders (entries : gmap string JsValue)
| PlainHeaders (entries : gmap string JsValue).

Record AbortSignal : Type := mkSignal { aborted : bool }.

Record AxiosConfig : Type := mkConfig {
  cfg_url : option string;
  cfg_baseURL : option string;
  cfg_method : option string;
  cfg_headers : option ConfigHeaders;
  cfg_params : JsValue;
  cfg_data : JsValue;
  cfg_timeout : option Z;
  cfg_maxRedirects : option Z;
  cfg_responseType : option string;
  cfg_signal : option AbortSignal;
  cfg_validateStatus : option (Z -> bool);
}.

Module AxiosHeadersApi.

(** The two methods of axios's [AxiosHeaders] that the translator calls.

    [headers.toJSON()]: the entries whose value is neither nullish nor
    [false]. *)
Definition kept (value : JsValue) : bool :=
  negb (Js.isNullish value) &&
  match value with VBool false => false | _ => true end.

Definition toJSON (entries : gmap string JsValue) : gmap string JsValue :=
  filter (fun kv => kept (snd kv) = true) entries.

(** [headers.get(name)]: the value stored under [name], compared without
    regard to case; [undefined] when there is none. *)
Definition get (entries : gmap string JsValue) (name : string) : JsValue :=
  match List.find (fun kv => String.eqb (JsString.toLowerCase (fst kv))
                                        (JsString.toLowerCase name))
          (map_to_list entries) with
  | Some kv => snd kv
  | None => VUndefined
  end.

End AxiosHeadersApi.

(** ** The options handed to the executor ([PlaywrightFetchOptions]) *)

Record BodyOptions : Type := mkBody {
  body_data : option JsValue;
  body_form : option (gmap string JsValue);
  body_multipart : option JsValue;
}.

Definition noBody : BodyOptions := mkBody None None None.

Record PlaywrightFetchOptions : Type := mkFetchOptions {
  opt_method : option string;
  opt_headers : option (gmap string string);
  opt_params : option (gmap string JsValue);
  opt_data : option JsValue;
  opt_form : option (gmap string JsValue);
  opt_multipart : option JsValue;
  opt_timeout : option Z;
  opt_failOnStatusCode : option bool;
  opt_ignoreHTTPSErrors : option bool;
  opt_maxRedirects : option Z;
  opt_maxRetries : option Z;
}.

Record PlaywrightAdapterOptions : Type := mkAdapterOptions {
  ao_failOnStatusCode : option bool;
  ao_ignoreHTTPSErrors : option bool;
  ao_maxRedirects : option Z;
  ao_maxRetries : option Z;
}.

(** The multipart entry built for a file-like form field. *)
Definition fileDescriptor (name mimeType : string) (buffer : Blob) : JsValue :=
  VObject (<["name" := VStr name]>
          (<["mimeType" := VStr mimeType]>
          (<["buffer" := VBlob buffer]> ∅))).

(** How many of the three body fields hold a value. *)
Definition count {A : Type} (field : option A) : nat :=
  match field with Some _ => 1 | None => 0 end.

Definition populated (b : BodyOptions) : nat :=
  count (body_data b) + count (body_form b) + count (body_multipart b).

(** ** [src/utils/request.ts] *)

Module RequestUtils.

Definition buildUrl (config : AxiosConfig) : string :=
  let url := default EmptyString (cfg_url config) in
  match cfg_baseURL config with
  | Some baseURL =>
      if JsString.nonEmpty baseURL && negb (isAbsoluteURL url)
      then combineURLs baseURL url
      else url
  | None => url
  end.

Definition transformHeaders (config : AxiosConfig) : gmap string string :=
  match cfg_headers config with
  | Some h =>
      let rawHeaders := match h with
                        | AxiosHeaders e => AxiosHeadersApi.toJSON e
                        | PlainHeaders e => e
                        end in
      foldl (fun headers kv =>
               if Js.isNullish (snd kv) then headers
               else <[fst kv := Js.toString (snd kv)]> headers)
        ∅ (map_to_list rawHeaders)
  | None => ∅
  end.

(** The value kept for a parameter or form property that is neither
    [undefined] nor [null]. *)
Definition scalarOf (value : JsValue) : JsValue :=
  match value with
  | VBool _ | VNum _ => value
  | _ => VStr (Js.toString value)
  end.

(** The loop over [Object.entries] shared by [transformParams] and the
    form branch of [transformData]. *)
Definition flattenEntries (l : list (string * JsValue)) : gmap string JsValue :=
  foldl (fun acc kv =>
           if Js.isNullish (snd kv) then acc
           else <[fst kv := scalarOf (snd kv)]> acc)
    ∅ l.

Definition transformParams (config : AxiosConfig) : option (gmap string JsValue) :=
  if negb (Js.truthy (cfg_params config)) then None
  else match cfg_params config with
       | VURLSearchParams pairs => Some (VStr <$> Js.fromEntries pairs)
       | p =>
           let params := flattenEntries (Js.entries p) in
           if Nat.ltb 0 (size params) then Some params else None
       end.

Definition getContentType (config : AxiosConfig) : option string :=
  match cfg_headers config with
  | Some (AxiosHeaders e) =>
      match AxiosHeadersApi.get e "Content-Type" with
      | VStr contentType => Some (JsString.toLowerCase contentType)
      | _ => None
      end
  | _ => None
  end.

Definition isFormData (data : JsValue) : bool :=
  match data with VFormData _ => true | _ => false end.

Definition isURLSearchParams (data : JsValue) : bool :=
  match data with VURLSearchParams _ => true | _ => false end.

(** [contentType?.includes(needle)] in a condition *)
Definition declares (contentType : option string) (needle : string) : bool :=
  match contentType with
  | Some ct => JsString.includes needle ct
  | None => false
  end.

(** The callback of [data.forEach] in [transformData]. *)
Definition multipartField (value : FormDataEntryValue) : JsValue :=
  match value with
  | FDBlob b =>
      fileDescriptor
        (match blob_name b with Some name => name | None => "blob" end)
        (blob_type b)
        b
  | FDString s => VStr s
  end.

(** The branch taken when the content type declares a url-encoded form;
    [None] when neither of its two returns is reached. *)
Definition urlencodedBody (data : JsValue) : option BodyOptions :=
  match data with
  | VStr s =>
      Some (mkBody None (Some (VStr <$> Js.fromEntries (Js.parseQuery s))) None)
  | _ =>
      if Js.isObjectType data
      then Some (mkBody None (Some (flattenEntries (Js.entries data))) None)
      else None
  end.

(** The branch taken when the content type declares a multipart form. *)
Definition multipartBody (data : JsValue) : option BodyOptions :=
  if Js.isObjectType data && negb (Js.isBuffer data)
  then Some (mkBody None None (Some data))
  else None.

Definition transformData (config : AxiosConfig) : BodyOptions :=
  let data := cfg_data config in
  if Js.isNullish data then noBody
  else
    let contentType := getContentType config in
    match data with
    | VFormData entries =>
        let multipart :=
          foldl (fun acc kv => <[fst kv := multipartField (snd kv)]> acc) ∅ entries in
        mkBody None None (Some (VObject multipart))
    | VURLSearchParams pairs =>
        mkBody None (Some (VStr <$> Js.fromEntries pairs)) None
    | _ =>
        let viaForm :=
          if declares contentType "application/x-www-form-urlencoded"
          then urlencodedBody data else None in
        let viaMultipart :=
          if declares contentType "multipart/form-data"
          then multipartBody data else None in
        match viaForm, viaMultipart with
        | Some r, _ => r
        | None, Some r => r
        | None, None => mkBody (Some data) None None
        end
    end.

Definition transformRequest (config : AxiosConfig)
    (adapterOptions : option PlaywrightAdapterOptions) : PlaywrightFetchOptions :=
  let body := transformData config in
  let method :=
    JsString.orElse
      (match cfg_method config with
       | Some m => JsString.toUpperCase m
       | None => EmptyString
       end) "GET" in
  let timeout :=
    match cfg_timeout config with
    | Some t => if Z.ltb 0 t then Some t else None
    | None => None
    end in
  let maxRedirects :=
    match adapterOptions ≫= ao_maxRedirects with
    | Some n => Some n
    | None => cfg_maxRedirects config
    end in
  {| opt_method := Some method;
     opt_headers := Some (transformHeaders config);
     opt_params := transformParams config;
     opt_data := body_data body;
     opt_form := body_form body;
     opt_multipart := body_multipart body;
     opt_timeout := timeout;
     opt_failOnStatusCode := adapterOptions ≫= ao_failOnStatusCode;
     opt_ignoreHTTPSErrors := adapterOptions ≫= ao_ignoreHTTPSErrors;
     opt_maxRedirects := maxRedirects;
     opt_maxRetries := adapterOptions ≫= ao_maxRetries |}.

End RequestUtils.

(** ** Outcomes, thrown values and the executor's response

    A promise settles with a value or with a thrown value.  The executor's
    response ([APIResponse]) is known through its interface: the status,
    the status text, the headers, and what each body accessor settles
    with.  The types are first given over an arbitrary type [E] of thrown
    values, so that an [AxiosError] can carry a response and a cause. *)

Inductive OutcomeOf (E A : Type) : Type :=
| Resolved (value : A)
| Rejected (error : E).

Arguments Resolved {E A} value.
Arguments Rejected {E A} error.

Record APIResponseOf (E : Type) : Type := mkAPIResponse {
  resp_status : Z;
  resp_statusText : string;
  resp_headers : gmap string string;
  resp_body : OutcomeOf E (list Byte.byte);
  resp_text : OutcomeOf E string;
  resp_json : OutcomeOf E JsValue;
}.

Arguments mkAPIResponse {E}.
Arguments resp_status {E}.
Arguments resp_statusText {E}.
Arguments resp_headers {E}.
Arguments resp_body {E}.
Arguments resp_text {E}.
Arguments resp_json {E}.

Record AxiosResponseOf (E : Type) : Type := mkAxiosResponse {
  ar_data : JsValue;
  ar_status : Z;
  ar_statusText : string;
  ar_headers : gmap string string;
  ar_config : AxiosConfig;
  ar_request : APIResponseOf E;
}.

Arguments mkAxiosResponse {E}.
Arguments ar_data {E}.
Arguments ar_status {E}.
Arguments ar_statusText {E}.
Arguments ar_headers {E}.
Arguments ar_config {E}.
Arguments ar_request {E}.

Record AxiosErrorOf (E : Type) : Type := mkAxiosError {
  err_message : string;
  err_code : string;
  err_config : AxiosConfig;
  err_request : option (APIResponseOf E);
  err_response : option (AxiosResponseOf E);
  err_cause : option E;
}.

Arguments mkAxiosError {E}.
Arguments err_message {E}.
Arguments err_code {E}.
Arguments err_config {E}.
Arguments err_request {E}.
Arguments err_response {E}.
Arguments err_cause {E}.

(** A thrown value is an [AxiosError] or some other value that is neither
    [null] nor [undefined] (an [Error] of the executor, a [SyntaxError] of
    [json()], ...); of the latter the code reads only [message], which is
    [None] when the value has no such string. *)
Inductive Thrown : Type :=
| ThrownAxios (e : AxiosErrorOf Thrown)
| ThrownError (name : string) (message : option string).

Abbreviation Outcome := (OutcomeOf Thrown).
Abbreviation APIResponse := (APIResponseOf Thrown).
Abbreviation AxiosResponse := (AxiosResponseOf Thrown).
Abbreviation AxiosError := (AxiosErrorOf Thrown).

Definition ERR_CANCELED : string := "ERR_CANCELED".
Definition ERR_BAD_REQUEST : string := "ERR_BAD_REQUEST".
Definition ERR_NETWORK : string := "ERR_NETWORK".

(** [new AxiosError(message, code, config, request, response)] *)
Definition newAxiosError (message code : string) (config : AxiosConfig)
    (request : option APIResponse) (response : option AxiosResponse) : AxiosError :=
  mkAxiosError message code config request response None.

(** [axiosError.cause = cause] *)
Definition setCause (axiosError : AxiosError) (cause : Thrown) : AxiosError :=
  mkAxiosError (err_message axiosError) (err_code axiosError)
    (err_config axiosError) (err_request axiosError) (err_response axiosError)
    (Some cause).

(** [error instanceof AxiosError] *)
Definition isAxiosError (error : Thrown) : bool :=
  match error with ThrownAxios _ => true | ThrownError _ _ => false end.

(** [(error as Error).message] in a condition and as a value *)
Definition messageOf (error : Thrown) : string :=
  match error with
  | ThrownAxios e => err_message e
  | ThrownError _ (Some m) => m
  | ThrownError _ None => EmptyString
  end.

(** ** Calls on the collaborators

    Every call of the executor and of a body accessor is recorded. *)

Inductive Event : Type :=
| EvFetch (url : string) (options : PlaywrightFetchOptions)
| EvBody
| EvText
| EvJson.

Definition isFetch (e : Event) : bool :=
  match e with EvFetch _ _ => true | _ => false end.

Definition isAccessor (e : Event) : bool :=
  match e with EvFetch _ _ => false | _ => true end.

(** The number of executor calls and of body-accessor calls in a trace. *)
Definition fetchCalls (trace : list Event) : nat :=
  length (filter (fun e => isFetch e = true) trace).

Definition accessorCalls (trace : list Event) : nat :=
  length (filter (fun e => isAccessor e = true) trace).

(** The executor: [requestContext.fetch]. *)
Definition APIRequestContext : Type :=
  string -> PlaywrightFetchOptions -> Outcome APIResponse.

Module Async.

Definition M (A : Type) : Type := list Event -> Outcome A * list Event.

Definition ret {A} (a : A) : M A := fun trace => (Resolved a, trace).

Definition throw {A} (e : Thrown) : M A := fun trace => (Rejected e, trace).

Definition bind {A B} (m : M A) (k : A -> M B) : M B :=
  fun trace =>
    match m trace with
    | (Resolved a, trace') => k a trace'
    | (Rejected e, trace') => (Rejected e, trace')
    end.

(** [try { m } catch (error) { handler(error) }] *)
Definition tryCatch {A} (m : M A) (handler : Thrown -> M A) : M A :=
  fun trace =>
    match m trace with
    | (Resolved a, trace') => (Resolved a, trace')
    | (Rejected e, trace') => handler e trace'
    end.

(** A call on a collaborator: it is recorded, then it settles. *)
Definition call {A} (ev : Event) (settled : Outcome A) : M A :=
  fun trace => (settled, (trace ++ [ev])%list).

Definition fetch (requestContext : APIRequestContext) (url : string)
    (options : PlaywrightFetchOptions) : M APIResponse :=
  call (EvFetch url options) (requestContext url options).

Definition body (response : APIResponse) : M (list Byte.byte) :=
  call EvBody (resp_body response).

Definition text (response : APIResponse) : M string :=
  call EvText (resp_text response).

Definition json (response : APIResponse) : M JsValue :=
  call EvJson (resp_json response).

End Async.

Notation "'let*' x ':=' m 'in' k" := (Async.bind m (fun x => k))
  (at level 10, x name, m at level 100, k at level 200, only parsing).

(** ** [src/utils/response.ts] *)

Module ResponseUtils.

Definition transformResponseHeaders (headers : gmap string string) : gmap string string :=
  headers.

(** The [type] of [new Blob(parts, { type })]: lower-cased, and empty
    when it has a character outside the printable range. *)
Definition blobType (type : string) : string :=
  if forallb (JsString.between 32 126) (list_ascii_of_string type)
  then JsString.toLowerCase type
  else EmptyString.

(** [response.headers()['content-type'] || ''] *)
Definition contentTypeOf (response : APIResponse) : string :=
  JsString.orElse (default EmptyString (resp_headers response !! "content-type"))
    EmptyString.

(** [config.responseType || 'json'] *)
Definition responseTypeOf (config : AxiosConfig) : string :=
  JsString.orElse (default EmptyString (cfg_responseType config)) "json".

Definition parseResponseBody (response : APIResponse) (config : AxiosConfig)
    : Async.M JsValue :=
  let contentType := contentTypeOf response in
  let responseType := responseTypeOf config in
  if String.eqb responseType "arraybuffer" then
    let* buffer := Async.body response in
    Async.ret (VArrayBuffer buffer)
  else if String.eqb responseType "blob" then
    let* buffer := Async.body response in
    Async.ret (VBlob (mkBlob None (blobType contentType) buffer))
  else if String.eqb responseType "text" then
    let* text := Async.text response in
    Async.ret (VStr text)
  else if String.eqb responseType "stream" then
    let* buffer := Async.body response in
    Async.ret (VBuffer buffer)
  else
    if JsString.includes "application/json" contentType then
      Async.tryCatch
        (Async.json response)
        (fun _ => let* text := Async.text response in Async.ret (VStr text))
    else
      let* text := Async.text response in
      Async.ret (VStr text).

Definition transformResponse (response : APIResponse) (config : AxiosConfig)
    : Async.M AxiosResponse :=
  let* data := parseResponseBody response config in
  Async.ret
    {| ar_data := data;
       ar_status := resp_status response;
       ar_statusText :=
         JsString.orElse (resp_statusText response)
           (getStatusText (resp_status response));
       ar_headers := transformResponseHeaders (resp_headers response);
       ar_config := config;
       ar_request := response |}.

End ResponseUtils.

(** ** [src/axios-adapter.ts] *)

Module AxiosAdapter.

(** The object literal passed to [requestContext.fetch]. *)
Definition executorOptions (requestOptions : PlaywrightFetchOptions)
    : PlaywrightFetchOptions :=
  {| opt_method := opt_method requestOptions;
     opt_headers := opt_headers requestOptions;
     opt_data := opt_data requestOptions;
     opt_form := opt_form requestOptions;
     opt_multipart := opt_multipart requestOptions;
     opt_params := opt_params requestOptions;
     opt_timeout := opt_timeout requestOptions;
     opt_failOnStatusCode :=
       Some (default false (opt_failOnStatusCode requestOptions));
     opt_ignoreHTTPSErrors := opt_ignoreHTTPSErrors requestOptions;
     opt_maxRedirects := opt_maxRedirects requestOptions;
     opt_maxRetries := opt_maxRetries requestOptions |}.

(** [config.signal?.aborted] in a condition *)
Definition signalAborted (signal : option AbortSignal) : bool :=
  match signal with
  | Some s => aborted s
  | None => false
  end.

(** [config.validateStatus && !config.validateStatus(status)] *)
Definition statusRejected (config : AxiosConfig) (status : Z) : bool :=
  match cfg_validateStatus config with
  | Some validateStatus => negb (validateStatus status)
  | None => false
  end.

(** The [catch] block of [playwrightAdapter]. *)
Definition onError (config : AxiosConfig) (error : Thrown) : Async.M AxiosResponse :=
  if isAxiosError error then Async.throw error
  else
    let axiosError :=
      newAxiosError (JsString.orElse (messageOf error) "Request failed")
        ERR_NETWORK config None None in
    Async.throw (ThrownAxios (setCause axiosError error)).

(** The function returned by [createPlaywrightAdapter(requestContext, options)]. *)
Definition playwrightAdapter (requestContext : APIRequestContext)
    (options : option PlaywrightAdapterOptions) (config : AxiosConfig)
    : Async.M AxiosResponse :=
  let url := RequestUtils.buildUrl config in
  let requestOptions := RequestUtils.transformRequest config options in
  if signalAborted (cfg_signal config) then
    Async.throw
      (ThrownAxios (newAxiosError "Request aborted" ERR_CANCELED config None None))
  else
    Async.tryCatch
      (let* response :=
         Async.fetch requestContext url (executorOptions requestOptions) in
       let* axiosResponse := ResponseUtils.transformResponse response config in
       if statusRejected config (ar_status axiosResponse) then
         Async.throw
           (ThrownAxios
              (newAxiosError
                 ("Request failed with status code " +:+
                  JsString.ofZ (ar_status axiosResponse))
                 ERR_BAD_REQUEST config (Some response) (Some axiosResponse)))
       else Async.ret axiosResponse)
      (onError config).

Definition createPlaywrightAdapter (requestContext : APIRequestContext)
    (options : option PlaywrightAdapterOptions)
    : AxiosConfig -> Async.M AxiosResponse :=
  playwrightAdapter requestContext options.

End AxiosAdapter.

(** ** [src/fetch-adapter.ts] *)

Module FetchAdapter.

Record PlaywrightFetchAdapterOptions : Type := mkFetchAdapterOptions {
  fo_ignoreHTTPSErrors : option bool;
  fo_maxRedirects : option Z;
  fo_maxRetries : option Z;
  fo_timeout : option Z;
}.

(** [RequestInit['headers']]: a [Headers] instance, an array of pairs or
    a plain record. *)
Inductive HeadersInit : Type :=
| HeadersInstance (entries : list (string * string))
| HeadersArray (pairs : list (string * string))
| HeadersRecord (record : gmap string string).

Record Request : Type := mkRequest {
  req_url : string;
  req_method : string;
  req_headers : list (string * string);
}.

Inductive FetchInput : Type :=
| InputString (url : string)
| InputURL (href : string)
| InputRequest (request : Request).

Record RequestInit : Type := mkInit {
  init_method : option string;
  init_headers : option HeadersInit;
  init_body : JsValue;
  init_signal : option AbortSignal;
}.

(** The standard [Response] the adapter resolves with; the argument
    checks of its constructor are not part of the embedding. *)
Record Response : Type := mkResponse {
  res_body : list Byte.byte;
  res_status : Z;
  res_statusText : string;
  res_headers : gmap string string;
}.

Definition transformHeaders (headers : option HeadersInit) : option (gmap string string) :=
  match headers with
  | None => None
  | Some (HeadersInstance entries) =>
      Some (foldl (fun result kv => <[fst kv := snd kv]> result) ∅ entries)
  | Some (HeadersArray pairs) =>
      Some (foldl (fun result kv => <[fst kv := snd kv]> result) ∅ pairs)
  | Some (HeadersRecord record) => Some record
  end.

(** The callback of [body.forEach] in [transformBody]. *)
Definition multipartField (value : FormDataEntryValue) : JsValue :=
  match value with
  | FDBlob b =>
      fileDescriptor
        (match blob_name b with Some name => name | None => "blob" end)
        (JsString.orElse (blob_type b) "application/octet-stream")
        b
  | FDString s => VStr s
  end.

(** [headers?.[name]?.toLowerCase()] *)
Definition lowerHeader (headers : option (gmap string string)) (name : string)
    : option string :=
  JsString.toLowerCase <$> (headers ≫= fun h => h !! name).

(** [a || b] where both may be [undefined] *)
Definition orUndefined (a b : option string) : option string :=
  match a with
  | Some s => if JsString.nonEmpty s then a else b
  | None => b
  end.

Definition transformBody (body : JsValue) (headers : option (gmap string string))
    : BodyOptions :=
  if Js.isNullish body then noBody
  else
    match body with
    | VFormData entries =>
        let multipart :=
          foldl (fun acc kv => <[fst kv := multipartField (snd kv)]> acc) ∅ entries in
        mkBody None None (Some (VObject multipart))
    | VURLSearchParams pairs =>
        mkBody None (Some (VStr <$> Js.fromEntries pairs)) None
    | _ =>
        let contentType :=
          orUndefined (lowerHeader headers "content-type")
                      (lowerHeader headers "Content-Type") in
        match body with
        | VStr s =>
            if RequestUtils.declares contentType "application/x-www-form-urlencoded"
            then mkBody None (Some (VStr <$> Js.fromEntries (Js.parseQuery s))) None
            else mkBody (Some body) None None
        | _ => mkBody (Some body) None None
        end
    end.

Definition toResponse (apiResponse : APIResponse) : Async.M Response :=
  let* body := Async.body apiResponse in
  let headers := resp_headers apiResponse in
  let status := resp_status apiResponse in
  let statusText :=
    JsString.orElse (resp_statusText apiResponse) (getStatusText status) in
  Async.ret (mkResponse body status statusText headers).

(** [init?.method || (input instanceof Request ? input.method : 'GET')] *)
Definition chooseMethod (input : FetchInput) (init : option RequestInit) : string :=
  let fallback :=
    match input with
    | InputRequest request => req_method request
    | _ => "GET"
    end in
  match init ≫= init_method with
  | Some m => if JsString.nonEmpty m then m else fallback
  | None => fallback
  end.

(** [init?.headers || (input instanceof Request
      ? Object.fromEntries(input.headers) : undefined)] *)
Definition chooseHeaders (input : FetchInput) (init : option RequestInit)
    : option HeadersInit :=
  match init ≫= init_headers with
  | Some h => Some h
  | None =>
      match input with
      | InputRequest request =>
          Some (HeadersRecord (Js.fromEntries (req_headers request)))
      | _ => None
      end
  end.

(** [init?.body] *)
Definition chooseBody (init : option RequestInit) : JsValue :=
  match init with
  | Some i => init_body i
  | None => VUndefined
  end.

(** The function returned by [createPlaywrightFetch(requestContext, options)]. *)
Definition playwrightFetch (requestContext : APIRequestContext)
    (options : option PlaywrightFetchAdapterOptions)
    (input : FetchInput) (init : option RequestInit) : Async.M Response :=
  let url :=
    match input with
    | InputRequest request => req_url request
    | InputString s => s
    | InputURL href => href
    end in
  let method := chooseMethod input init in
  let headers := transformHeaders (chooseHeaders input init) in
  let bodyOptions := transformBody (chooseBody init) headers in
  let* apiResponse :=
    Async.fetch requestContext url
      {| opt_method := Some method;
         opt_headers := headers;
         opt_params := None;
         opt_data := body_data bodyOptions;
         opt_form := body_form bodyOptions;
         opt_multipart := body_multipart bodyOptions;
         opt_timeout := options ≫= fo_timeout;
         opt_failOnStatusCode := None;
         opt_ignoreHTTPSErrors := options ≫= fo_ignoreHTTPSErrors;
         opt_maxRedirects := options ≫= fo_maxRedirects;
         opt_maxRetries := options ≫= fo_maxRetries |} in
  toResponse apiResponse.

Definition createPlaywrightFetch (requestContext : APIRequestContext)
    (options : option PlaywrightFetchAdapterOptions)
    : FetchInput -> option RequestInit -> Async.M Response :=
  playwrightFetch requestContext options.

End FetchAdapter.

(** ** Concrete descriptors and responses used in the examples below *)

Module Samples.

Definition bytesOf (s : string) : list Byte.byte := list_byte_of_string s.

Definition emptyConfig : AxiosConfig :=
  mkConfig None None None (Some (AxiosHeaders ∅)) VUndefined VUndefined
    None None None None None.

Definition withUrl (baseURL url : string) : AxiosConfig :=
  mkConfig (Some url) (Some baseURL) None (Some (AxiosHeaders ∅))
    VUndefined VUndefined None None None None None.

Definition withSignal (signal : AbortSignal) : AxiosConfig :=
  mkConfig (Some "/users") (Some "https://api.example.com") (Some "get")
    (Some (AxiosHeaders ∅)) VUndefined VUndefined None None None
    (Some signal) None.

Definition withValidate (validateStatus : option (Z -> bool)) : AxiosConfig :=
  mkConfig (Some "/users") (Some "https://api.example.com") (Some "get")
    (Some (AxiosHeaders ∅)) VUndefined VUndefined None None None
    None validateStatus.

Definition withParams (params : JsValue) : AxiosConfig :=
  mkConfig (Some "/users") None None (Some (AxiosHeaders ∅)) params VUndefined
    None None None None None.

Definition withData (data : JsValue) : AxiosConfig :=
  mkConfig (Some "/upload") None (Some "post") (Some (AxiosHeaders ∅))
    VUndefined data None None None None None.

(** [new Blob(['hi'])]: no file name, no type. *)
Definition untypedBlob : Blob := mkBlob None EmptyString (bytesOf "hi").

Definition jsonHeaders : gmap string string :=
  {[ "content-type" := "application/json" ]}.

Definition okResponse : APIResponse :=
  mkAPIResponse 200%Z "OK" jsonHeaders
    (Resolved (bytesOf "{}")) (Resolved "{}") (Resolved (VObject ∅)).

Definition notFoundResponse : APIResponse :=
  mkAPIResponse 404%Z "Not Found" jsonHeaders
    (Resolved (bytesOf "{}")) (Resolved "{}") (Resolved (VObject ∅)).

(** A response that declares JSON and carries something else. *)
Definition invalidJsonResponse : APIResponse :=
  mkAPIResponse 200%Z "OK" jsonHeaders
    (Resolved (bytesOf "not valid json")) (Resolved "not valid json")
    (Rejected (ThrownError "SyntaxError" (Some "Unexpected token"))).

Definition plainTextResponse : APIResponse :=
  mkAPIResponse 200%Z "OK" {[ "content-type" := "text/plain" ]}
    (Resolved (bytesOf "plain text response")) (Resolved "plain text response")
    (Rejected (ThrownError "SyntaxError" (Some "Unexpected token"))).

(** A response whose body can no longer be read. *)
Definition disposedResponse : APIResponse :=
  mkAPIResponse 200%Z "OK" {[ "content-type" := "text/plain" ]}
    (Rejected (ThrownError "Error" (Some "Response has been disposed")))
    (Rejected (ThrownError "Error" (Some "Response has been disposed")))
    (Rejected (ThrownError "Error" (Some "Response has been disposed"))).

Definition answering (response : APIResponse) : APIRequestContext :=
  fun _ _ => Resolved response.

Definition failing (error : Thrown) : APIRequestContext :=
  fun _ _ => Rejected error.

Definition abortedInit : FetchAdapter.RequestInit :=
  FetchAdapter.mkInit None None VUndefined (Some (mkSignal true)).

Definition emptyMethodInit : FetchAdapter.RequestInit :=
  FetchAdapter.mkInit (Some EmptyString) None VUndefined None.

Definition postRequest : FetchAdapter.Request :=
  FetchAdapter.mkRequest "https://api.example.com/users" "POST" [].

End Samples.

(** ** Notions used to state the properties *)

(** The requested representation is decoded by the [json] / [default]
    case of [parseResponseBody]. *)
Definition jsonRepresentation (config : AxiosConfig) : bool :=
  let responseType := ResponseUtils.responseTypeOf config in
  negb (String.eqb responseType "arraybuffer") &&
  negb (String.eqb responseType "blob") &&
  negb (String.eqb responseType "text") &&
  negb (String.eqb responseType "stream").

(** The content type of the response declares JSON. *)
Definition declaresJson (response : APIResponse) : bool :=
  JsString.includes "application/json" (ResponseUtils.contentTypeOf response).

Definition isRejected {A : Type} (o : Outcome A) : bool :=
  match o with Rejected _ => true | Resolved _ => false end.

(** The response descriptor that [transformResponse] settles with. *)
Definition decoded (response : APIResponse) (config : AxiosConfig)
    : Outcome AxiosResponse :=
  fst (ResponseUtils.transformResponse response config []).

(** The first executor call of a trace. *)
Fixpoint firstFetch (trace : list Event) : option (string * PlaywrightFetchOptions) :=
  match trace with
  | [] => None
  | EvFetch url options :: _ => Some (url, options)
  | _ :: rest => firstFetch rest
  end.

(** The method that a call of the fetch-style entry point hands to the
    executor. *)
Definition forwardedMethod (requestContext : APIRequestContext)
    (options : option FetchAdapter.PlaywrightFetchAdapterOptions)
    (input : FetchAdapter.FetchInput) (init : option FetchAdapter.RequestInit)
    : option string :=
  firstFetch (snd (FetchAdapter.playwrightFetch requestContext options input init []))
    ≫= fun call => opt_method (snd call).

(** The value of the last pair named [key] in an ordered collection. *)
Fixpoint lastValue {V : Type} (key : string) (pairs : list (string * V)) : option V :=
  match pairs with
  | [] => None
  | (k, v) :: rest =>
      match lastValue key rest with
      | Some v' => Some v'
      | None => if String.eqb k key then Some v else None
      end
  end.

(** The [multipart] mapping of a body codec result, when it is an object
    built by the codec. *)
Definition multipartOf (b : BodyOptions) : gmap string JsValue :=
  match body_multipart b with
  | Some (VObject fields) => fields
  | _ => ∅
  end.

(** The shapes of URL that the specification calls absolute: a scheme (a
    letter, then letters, digits, [+], [-] and [.]) followed by [://], or
    two leading slashes (more may follow). *)
Fixpoint allChars (p : ascii -> bool) (s : string) : bool :=
  match s with
  | EmptyString => true
  | String c s' => p c && allChars p s'
  end.

Definition hasScheme (url : string) : Prop :=
  exists c scheme rest,
    url = String c (scheme +:+ "://" +:+ rest) /\
    isSchemeStart c = true /\ allChars isSchemeChar scheme = true.

Definition hasLeadingSlashes (url : string) : Prop :=
  exists rest, url = "//" +:+ rest.

(** ** Notions used to state the further properties *)

(** A run of [n] slashes. *)
Fixpoint slashes (n : nat) : string :=
  match n with
  | O => EmptyString
  | S n' => String JsString.slash (slashes n')
  end.

(** [s.endsWith('/')] *)
Fixpoint endsWithSlash (s : string) : bool :=
  match s with
  | EmptyString => false
  | String c EmptyString => JsString.isSlash c
  | String _ s' => endsWithSlash s'
  end.


(** The events of a trace are all calls of body accessors. *)
Definition onlyAccessors (trace : list Event) : bool := forallb isAccessor trace.

(** The URL that the fetch-style entry point takes from its input. *)
Definition inputUrl (input : FetchAdapter.FetchInput) : string :=
  match input with
  | FetchAdapter.InputString url => url
  | FetchAdapter.InputURL href => href
  | FetchAdapter.InputRequest request => FetchAdapter.req_url request
  end.

(** * Properties *)

(** ** The body codec *)

Lemma populated_noBody : populated noBody = 0.
Proof. reflexivity. Qed.

Lemma urlencodedBody_populated data r :
  RequestUtils.urlencodedBody data = Some r -> populated r = 1.
Proof.
  unfold RequestUtils.urlencodedBody.
  destruct data; simpl; intros H; inversion H; reflexivity.
Qed.

Lemma multipartBody_populated data r :
  RequestUtils.multipartBody data = Some r -> populated r = 1.
Proof.
  unfold RequestUtils.multipartBody.
  destruct (Js.isObjectType data && negb (Js.isBuffer data));
    intros H; inversion H; reflexivity.
Qed.

Lemma transformData_populated config :
  populated (RequestUtils.transformData config) =
  if Js.isNullish (cfg_data config) then 0 else 1.
Proof.
  unfold RequestUtils.transformData.
  destruct (Js.isNullish (cfg_data config)) eqn:Hnull; [reflexivity|].
  set (ct := RequestUtils.getContentType config).
  assert (Hrest :
    populated
      (match
         (if RequestUtils.declares ct "application/x-www-form-urlencoded"
          then RequestUtils.urlencodedBody (cfg_data config) else None),
         (if RequestUtils.declares ct "multipart/form-data"
          then RequestUtils.multipartBody (cfg_data config) else None)
       with
       | Some r, _ => r
       | None, Some r => r
       | None, None => mkBody (Some (cfg_data config)) None None
       end) = 1).
  { destruct (RequestUtils.declares ct "application/x-www-form-urlencoded").
    - destruct (RequestUtils.urlencodedBody (cfg_data config)) eqn:Hu.
      + eapply urlencodedBody_populated; eauto.
      + destruct (RequestUtils.declares ct "multipart/form-data"); [|reflexivity].
        destruct (RequestUtils.multipartBody (cfg_data config)) eqn:Hm; [|reflexivity].
        eapply multipartBody_populated; eauto.
    - destruct (RequestUtils.declares ct "multipart/form-data"); [|reflexivity].
      destruct (RequestUtils.multipartBody (cfg_data config)) eqn:Hm; [|reflexivity].
      eapply multipartBody_populated; eauto. }
  destruct (cfg_data config); try exact Hrest; reflexivity.
Qed.

Lemma transformBody_populated body headers :
  populated (FetchAdapter.transformBody body headers) =
  if Js.isNullish body then 0 else 1.
Proof.
  unfold FetchAdapter.transformBody.
  destruct body; simpl; try reflexivity.
  destruct (RequestUtils.declares _ _); reflexivity.
Qed.

(** C3.  Whatever the body and the headers are, the body codec of the
    axios-style translator ([transformData]) and the one of the fetch-style
    adapter ([transformBody]) populate at most one of the fields [data]
    (raw), [form] and [multipart]; so does the options bag that
    [transformRequest] builds and the adapter hands to the executor. *)
Theorem body_codec_populates_at_most_one
    (config : AxiosConfig) (adapterOptions : option PlaywrightAdapterOptions)
    (body : JsValue) (headers : option (gmap string string)) :
  populated (RequestUtils.transformData config) <= 1 /\
  populated (FetchAdapter.transformBody body headers) <= 1 /\
  (let bag := AxiosAdapter.executorOptions
                (RequestUtils.transformRequest config adapterOptions) in
   count (opt_data bag) + count (opt_form bag) + count (opt_multipart bag) <= 1).
Proof.
  assert (Hd : populated (RequestUtils.transformData config) <= 1).
  { rewrite transformData_populated. destruct (Js.isNullish _); auto. }
  split; [exact Hd|split].
  - rewrite transformBody_populated. destruct (Js.isNullish _); auto.
  - exact Hd.
Qed.

(** ** The response translator *)

Ltac run_async :=
  unfold Async.bind, Async.tryCatch, Async.fetch, Async.body, Async.text,
    Async.json, Async.call, Async.ret, Async.throw; simpl.

Section ResponseTranslator.

Variable response : APIResponse.
Variable config : AxiosConfig.

(** What the [json] / [default] case does, by content type and by what
    [json()] and [text()] settle with. *)
Lemma parseResponseBody_json trace :
  jsonRepresentation config = true ->
  ResponseUtils.parseResponseBody response config trace =
  if declaresJson response then
    match resp_json response with
    | Resolved value => (Resolved value, (trace ++ [EvJson])%list)
    | Rejected _ =>
        (match resp_text response with
         | Resolved text => Resolved (VStr text)
         | Rejected e => Rejected e
         end, (trace ++ [EvJson; EvText])%list)
    end
  else
    (match resp_text response with
     | Resolved text => Resolved (VStr text)
     | Rejected e => Rejected e
     end, (trace ++ [EvText])%list).
Proof.
  unfold jsonRepresentation, ResponseUtils.parseResponseBody, declaresJson.
  intros H.
  destruct (String.eqb (ResponseUtils.responseTypeOf config) "arraybuffer"); [discriminate|].
  destruct (String.eqb (ResponseUtils.responseTypeOf config) "blob"); [discriminate|].
  destruct (String.eqb (ResponseUtils.responseTypeOf config) "text"); [discriminate|].
  destruct (String.eqb (ResponseUtils.responseTypeOf config) "stream"); [discriminate|].
  destruct (JsString.includes _ _); run_async.
  - destruct (resp_json response); [reflexivity|].
    rewrite <- app_assoc. simpl. destruct (resp_text response); reflexivity.
  - destruct (resp_text response); reflexivity.
Qed.

(** The other representations read one accessor. *)
Lemma parseResponseBody_other trace :
  jsonRepresentation config = false ->
  exists ev, isAccessor ev = true /\
    snd (ResponseUtils.parseResponseBody response config trace) = (trace ++ [ev])%list.
Proof.
  unfold jsonRepresentation, ResponseUtils.parseResponseBody.
  intros H.
  destruct (String.eqb (ResponseUtils.responseTypeOf config) "arraybuffer").
  { exists EvBody. run_async. destruct (resp_body response); auto. }
  destruct (String.eqb (ResponseUtils.responseTypeOf config) "blob").
  { exists EvBody. run_async. destruct (resp_body response); auto. }
  destruct (String.eqb (ResponseUtils.responseTypeOf config) "text").
  { exists EvText. run_async. destruct (resp_text response); auto. }
  destruct (String.eqb (ResponseUtils.responseTypeOf config) "stream").
  { exists EvBody. run_async. destruct (resp_body response); auto. }
  discriminate.
Qed.

Lemma accessorCalls_app t1 t2 :
  accessorCalls (t1 ++ t2) = accessorCalls t1 + accessorCalls t2.
Proof. unfold accessorCalls. rewrite filter_app, length_app. reflexivity. Qed.

Lemma accessorCalls_one ev : isAccessor ev = true -> accessorCalls [ev] = 1.
Proof. destruct ev; simpl; intros H; try discriminate; reflexivity. Qed.

Lemma parseResponseBody_calls trace :
  accessorCalls (snd (ResponseUtils.parseResponseBody response config trace)) =
  accessorCalls trace +
  (if jsonRepresentation config && declaresJson response &&
      isRejected (resp_json response)
   then 2 else 1).
Proof.
  destruct (jsonRepresentation config) eqn:Hj.
  - rewrite parseResponseBody_json by exact Hj.
    destruct (declaresJson response); simpl.
    + destruct (resp_json response); simpl; rewrite accessorCalls_app; reflexivity.
    + rewrite accessorCalls_app. reflexivity.
  - destruct (parseResponseBody_other trace Hj) as (ev & Hev & ->).
    rewrite accessorCalls_app, (accessorCalls_one ev Hev). reflexivity.
Qed.

(** [transformResponse] makes the calls of [parseResponseBody] and no
    other. *)
Lemma transformResponse_trace trace :
  snd (ResponseUtils.transformResponse response config trace) =
  snd (ResponseUtils.parseResponseBody response config trace).
Proof.
  unfold ResponseUtils.transformResponse, Async.bind, Async.ret.
  destruct (ResponseUtils.parseResponseBody response config trace) as [[v|e] t];
    reflexivity.
Qed.

Lemma toResponse_trace trace :
  snd (FetchAdapter.toResponse response trace) = (trace ++ [EvBody])%list.
Proof.
  unfold FetchAdapter.toResponse. run_async.
  destruct (resp_body response); reflexivity.
Qed.

End ResponseTranslator.

(** C9, as the code has it.  One call of the response translator reads the
    body of the executor response through exactly one accessor call, except
    in the fallback of the [json] representation: when the content type
    declares JSON and [json()] rejects, [text()] is read after it, two
    accessor calls in all.  The fetch-style [toResponse] reads [body()]
    once. *)
Theorem body_accessor_calls_per_translation
    (response : APIResponse) (config : AxiosConfig) (trace : list Event) :
  accessorCalls (snd (ResponseUtils.transformResponse response config trace)) =
    accessorCalls trace +
    (if jsonRepresentation config && declaresJson response &&
        isRejected (resp_json response)
     then 2 else 1) /\
  accessorCalls (snd (FetchAdapter.toResponse response trace)) =
    accessorCalls trace + 1.
Proof.
  split.
  - rewrite transformResponse_trace. apply parseResponseBody_calls.
  - rewrite toResponse_trace, accessorCalls_app. reflexivity.
Qed.

(** C9 as stated fails: for a response that declares JSON and whose
    [json()] rejects, the translator calls [json()] and then [text()]. *)
Lemma body_accessor_read_twice_on_fallback :
  snd (ResponseUtils.transformResponse
         Samples.invalidJsonResponse Samples.emptyConfig []) = [EvJson; EvText] /\
  accessorCalls
    (snd (ResponseUtils.transformResponse
            Samples.invalidJsonResponse Samples.emptyConfig [])) <> 1.
Proof. split; [reflexivity | vm_compute; discriminate]. Qed.

(** C4.  Under the [json] representation, with [text()] settling with the
    raw text: when the content type declares JSON and [json()] rejects
    (the body is not valid JSON), the decoded data is the raw text and
    nothing is thrown; when the content type does not declare JSON, the
    only accessor called is [text()] (no parse is attempted) and the data
    is the raw text. *)
Theorem json_decoding_falls_back_to_text
    (response : APIResponse) (config : AxiosConfig) (trace : list Event)
    (text : string) :
  jsonRepresentation config = true ->
  resp_text response = Resolved text ->
  (declaresJson response = true ->
   isRejected (resp_json response) = true ->
   ResponseUtils.parseResponseBody response config trace =
     (Resolved (VStr text), (trace ++ [EvJson; EvText])%list)) /\
  (declaresJson response = false ->
   ResponseUtils.parseResponseBody response config trace =
     (Resolved (VStr text), (trace ++ [EvText])%list)).
Proof.
  intros Hrep Htext. split.
  - intros Hct Hjson. rewrite parseResponseBody_json by exact Hrep.
    rewrite Hct, Htext. destruct (resp_json response); [discriminate|reflexivity].
  - intros Hct. rewrite parseResponseBody_json by exact Hrep.
    rewrite Hct, Htext. reflexivity.
Qed.

Lemma json_decoding_falls_back_to_text_witness :
  ResponseUtils.parseResponseBody Samples.invalidJsonResponse Samples.emptyConfig [] =
    (Resolved (VStr "not valid json"), [EvJson; EvText]) /\
  ResponseUtils.parseResponseBody Samples.plainTextResponse Samples.emptyConfig [] =
    (Resolved (VStr "plain text response"), [EvText]).
Proof.
  split.
  - apply (json_decoding_falls_back_to_text
             Samples.invalidJsonResponse Samples.emptyConfig [] "not valid json");
      reflexivity.
  - apply (json_decoding_falls_back_to_text
             Samples.plainTextResponse Samples.emptyConfig [] "plain text response");
      reflexivity.
Defined.

(** ** The axios-style entry point *)

(** What the translator settles with does not depend on the calls made
    before it; its own calls are appended to them. *)
Lemma parseResponseBody_frame response config trace :
  ResponseUtils.parseResponseBody response config trace =
  (fst (ResponseUtils.parseResponseBody response config []),
   (trace ++ snd (ResponseUtils.parseResponseBody response config []))%list).
Proof.
  unfold ResponseUtils.parseResponseBody.
  repeat match goal with
         | |- context [if String.eqb ?a ?b then _ else _] => destruct (String.eqb a b)
         end;
    try destruct (JsString.includes _ _);
    run_async;
    try destruct (resp_body response);
    try destruct (resp_json response);
    try destruct (resp_text response);
    simpl; rewrite <- ?app_assoc; reflexivity.
Qed.

Lemma transformResponse_frame response config trace :
  ResponseUtils.transformResponse response config trace =
  (decoded response config,
   (trace ++ snd (ResponseUtils.transformResponse response config []))%list).
Proof.
  unfold decoded, ResponseUtils.transformResponse, Async.bind, Async.ret.
  rewrite (parseResponseBody_frame response config trace).
  destruct (ResponseUtils.parseResponseBody response config []) as [[v|e] t];
    reflexivity.
Qed.

Lemma decoded_status response config axiosResponse :
  decoded response config = Resolved axiosResponse ->
  ar_status axiosResponse = resp_status response /\
  ar_request axiosResponse = response /\
  ar_config axiosResponse = config.
Proof.
  unfold decoded, ResponseUtils.transformResponse, Async.bind, Async.ret.
  destruct (ResponseUtils.parseResponseBody response config []) as [[v|e] t];
    simpl; intros H; inversion H; subst; simpl; auto.
Qed.

(** The translation settles with a descriptor as soon as [body()] and
    [text()] do, whatever [json()] does. *)
Lemma decoded_resolves response config bytes text :
  resp_body response = Resolved bytes ->
  resp_text response = Resolved text ->
  exists axiosResponse, decoded response config = Resolved axiosResponse.
Proof.
  intros Hbody Htext.
  unfold decoded, ResponseUtils.transformResponse, ResponseUtils.parseResponseBody.
  repeat match goal with
         | |- context [if String.eqb ?a ?b then _ else _] => destruct (String.eqb a b)
         end;
    try destruct (JsString.includes _ _);
    run_async; rewrite ?Hbody, ?Htext; simpl; eauto.
  destruct (resp_json response); rewrite ?Htext; simpl; eauto.
Qed.

Lemma fetchCalls_app t1 t2 : fetchCalls (t1 ++ t2) = fetchCalls t1 + fetchCalls t2.
Proof. unfold fetchCalls. rewrite filter_app, length_app. reflexivity. Qed.

(** Past the preflight check the adapter makes one executor call, with
    the resolved URL and the translated options, and goes on with what the
    call settles with. *)
Lemma playwrightAdapter_dispatch
    (requestContext : APIRequestContext) (options : option PlaywrightAdapterOptions)
    (config : AxiosConfig) (trace : list Event) :
  AxiosAdapter.signalAborted (cfg_signal config) = false ->
  AxiosAdapter.playwrightAdapter requestContext options config trace =
  let url := RequestUtils.buildUrl config in
  let bag := AxiosAdapter.executorOptions
               (RequestUtils.transformRequest config options) in
  match requestContext url bag with
  | Rejected error =>
      AxiosAdapter.onError config error (trace ++ [EvFetch url bag])%list
  | Resolved response =>
      Async.tryCatch
        (Async.bind (ResponseUtils.transformResponse response config)
           (fun axiosResponse =>
              if AxiosAdapter.statusRejected config (ar_status axiosResponse)
              then Async.throw
                     (ThrownAxios
                        (newAxiosError
                           ("Request failed with status code " +:+
                            JsString.ofZ (ar_status axiosResponse))
                           ERR_BAD_REQUEST config (Some response)
                           (Some axiosResponse)))
              else Async.ret axiosResponse))
        (AxiosAdapter.onError config)
        (trace ++ [EvFetch url bag])%list
  end.
Proof.
  intros Hsig. unfold AxiosAdapter.playwrightAdapter. rewrite Hsig.
  unfold Async.tryCatch at 1, Async.bind at 1, Async.fetch, Async.call.
  cbv zeta.
  destruct (requestContext _ _); reflexivity.
Qed.

(** C1, for the axios-style entry point.  When the signal of the request
    descriptor is already aborted at call time, the adapter rejects with an
    [AxiosError] whose message is "Request aborted" and whose code is
    [ERR_CANCELED], carrying the descriptor; the trace is left as it was,
    so the executor is not called. *)
Theorem aborted_signal_rejects_before_dispatch
    (requestContext : APIRequestContext) (options : option PlaywrightAdapterOptions)
    (config : AxiosConfig) (signal : AbortSignal) (trace : list Event) :
  cfg_signal config = Some signal ->
  aborted signal = true ->
  AxiosAdapter.playwrightAdapter requestContext options config trace =
    (Rejected (ThrownAxios
       (mkAxiosError "Request aborted" ERR_CANCELED config None None None)),
     trace) /\
  fetchCalls (snd (AxiosAdapter.playwrightAdapter requestContext options config trace))
    = fetchCalls trace.
Proof.
  intros Hsig Hab.
  assert (Hrun :
    AxiosAdapter.playwrightAdapter requestContext options config trace =
    (Rejected (ThrownAxios
       (mkAxiosError "Request aborted" ERR_CANCELED config None None None)),
     trace)).
  { unfold AxiosAdapter.playwrightAdapter, AxiosAdapter.signalAborted.
    rewrite Hsig, Hab. reflexivity. }
  split; [exact Hrun | rewrite Hrun; reflexivity].
Qed.

Lemma aborted_signal_rejects_before_dispatch_witness :
  AxiosAdapter.playwrightAdapter (Samples.answering Samples.okResponse) None
    (Samples.withSignal (mkSignal true)) [] =
    (Rejected (ThrownAxios
       (mkAxiosError "Request aborted" ERR_CANCELED
          (Samples.withSignal (mkSignal true)) None None None)),
     []).
Proof.
  apply (aborted_signal_rejects_before_dispatch
           (Samples.answering Samples.okResponse) None
           (Samples.withSignal (mkSignal true)) (mkSignal true) []);
    reflexivity.
Defined.

(** C1 as stated fails for the fetch-style entry point: it does not look at
    the signal of its init options, so with an aborted signal it calls the
    executor once and resolves. *)
Lemma fetch_entry_point_dispatches_despite_aborted_signal :
  FetchAdapter.init_signal Samples.abortedInit = Some (mkSignal true) /\
  fetchCalls
    (snd (FetchAdapter.playwrightFetch (Samples.answering Samples.okResponse) None
            (FetchAdapter.InputString "https://api.example.com/users")
            (Some Samples.abortedInit) [])) = 1 /\
  isRejected
    (fst (FetchAdapter.playwrightFetch (Samples.answering Samples.okResponse) None
            (FetchAdapter.InputString "https://api.example.com/users")
            (Some Samples.abortedInit) [])) = false.
Proof. repeat split; reflexivity. Qed.

(** C5.  Let the signal not be aborted, the executor resolve with
    [response], and the response translator yield the descriptor
    [axiosResponse].  Without a [validateStatus] predicate the adapter
    resolves with [axiosResponse], whatever the status.  With a predicate
    that rejects the status, the adapter rejects with an [AxiosError] of
    code [ERR_BAD_REQUEST] whose message is "Request failed with status
    code " followed by the status, carrying the descriptor of the request,
    the executor response and [axiosResponse], whose status is that of the
    executor response. *)
Theorem status_validation_outcome
    (requestContext : APIRequestContext) (options : option PlaywrightAdapterOptions)
    (config : AxiosConfig) (response : APIResponse) (axiosResponse : AxiosResponse)
    (trace : list Event) :
  AxiosAdapter.signalAborted (cfg_signal config) = false ->
  requestContext (RequestUtils.buildUrl config)
    (AxiosAdapter.executorOptions (RequestUtils.transformRequest config options))
    = Resolved response ->
  decoded response config = Resolved axiosResponse ->
  (cfg_validateStatus config = None ->
   fst (AxiosAdapter.playwrightAdapter requestContext options config trace)
     = Resolved axiosResponse) /\
  (forall validateStatus : Z -> bool,
     cfg_validateStatus config = Some validateStatus ->
     validateStatus (resp_status response) = false ->
     fst (AxiosAdapter.playwrightAdapter requestContext options config trace)
       = Rejected (ThrownAxios
           (mkAxiosError
              ("Request failed with status code " +:+ JsString.ofZ (resp_status response))
              ERR_BAD_REQUEST config (Some response) (Some axiosResponse) None)) /\
     ar_status axiosResponse = resp_status response).
Proof.
  intros Hsig Hfetch Hdec.
  destruct (decoded_status _ _ _ Hdec) as (Hstatus & _ & _).
  rewrite playwrightAdapter_dispatch by exact Hsig.
  cbv zeta. rewrite Hfetch.
  unfold Async.tryCatch, Async.bind.
  rewrite transformResponse_frame, Hdec.
  unfold AxiosAdapter.statusRejected. rewrite Hstatus.
  split.
  - intros Hnone. rewrite Hnone. reflexivity.
  - intros validateStatus Hsome Hrej. rewrite Hsome, Hrej. simpl.
    split; reflexivity.
Qed.

Lemma status_validation_outcome_witness :
  (exists r, fst (AxiosAdapter.playwrightAdapter
                    (Samples.answering Samples.notFoundResponse) None
                    (Samples.withValidate None) []) = Resolved r /\
             ar_status r = 404%Z) /\
  (exists e, fst (AxiosAdapter.playwrightAdapter
                    (Samples.answering Samples.notFoundResponse) None
                    (Samples.withValidate (Some (fun status => Z.ltb status 300))) [])
               = Rejected (ThrownAxios e) /\
             err_message e = "Request failed with status code 404" /\
             (ar_status <$> err_response e) = Some 404%Z).
Proof.
  pose proof (status_validation_outcome
                (Samples.answering Samples.notFoundResponse) None
                (Samples.withValidate None) Samples.notFoundResponse _ []
                eq_refl eq_refl eq_refl) as [Hnone _].
  pose proof (status_validation_outcome
                (Samples.answering Samples.notFoundResponse) None
                (Samples.withValidate (Some (fun status => Z.ltb status 300)))
                Samples.notFoundResponse _ []
                eq_refl eq_refl eq_refl) as [_ Hsome].
  split.
  - eexists. split; [apply Hnone; reflexivity | reflexivity].
  - destruct (Hsome _ eq_refl eq_refl) as [Hrej _].
    eexists. split; [exact Hrej | split; reflexivity].
Defined.

(** C6.  Let the signal not be aborted, and let the dispatch reject with
    [error]: either the executor rejects with it, or the executor resolves
    and the translation of its response rejects with it.  When [error] is
    an [AxiosError] the adapter rejects with it, unchanged.  Otherwise the
    adapter rejects with an [AxiosError] of code [ERR_NETWORK] whose
    message is the message of [error], or "Request failed" when that
    message is empty or missing, whose cause is [error] and which carries
    the descriptor of the request. *)
Theorem dispatch_rejection_mapping
    (requestContext : APIRequestContext) (options : option PlaywrightAdapterOptions)
    (config : AxiosConfig) (error : Thrown) (trace : list Event) :
  AxiosAdapter.signalAborted (cfg_signal config) = false ->
  (requestContext (RequestUtils.buildUrl config)
     (AxiosAdapter.executorOptions (RequestUtils.transformRequest config options))
     = Rejected error \/
   exists response,
     requestContext (RequestUtils.buildUrl config)
       (AxiosAdapter.executorOptions (RequestUtils.transformRequest config options))
       = Resolved response /\
     decoded response config = Rejected error) ->
  fst (AxiosAdapter.playwrightAdapter requestContext options config trace) =
  Rejected
    match error with
    | ThrownAxios _ => error
    | ThrownError _ message =>
        ThrownAxios
          (mkAxiosError
             (match message with
              | Some (String c m) => String c m
              | _ => "Request failed"
              end)
             ERR_NETWORK config None None (Some error))
    end.
Proof.
  intros Hsig [Hfetch | (response & Hfetch & Hdec)];
    rewrite playwrightAdapter_dispatch by exact Hsig; cbv zeta; rewrite Hfetch.
  - destruct error as [e | name [[|c m]|]]; reflexivity.
  - unfold Async.tryCatch, Async.bind.
    rewrite transformResponse_frame, Hdec.
    destruct error as [e | name [[|c m]|]]; reflexivity.
Qed.

Lemma dispatch_rejection_mapping_witness :
  fst (AxiosAdapter.playwrightAdapter
         (Samples.failing (ThrownError "Error" (Some EmptyString))) None
         Samples.emptyConfig []) =
  Rejected (ThrownAxios
    (mkAxiosError "Request failed" ERR_NETWORK Samples.emptyConfig None None
       (Some (ThrownError "Error" (Some EmptyString))))) /\
  fst (AxiosAdapter.playwrightAdapter
         (Samples.answering Samples.disposedResponse) None
         Samples.emptyConfig []) =
  Rejected (ThrownAxios
    (mkAxiosError "Response has been disposed" ERR_NETWORK Samples.emptyConfig
       None None
       (Some (ThrownError "Error" (Some "Response has been disposed"))))).
Proof.
  split.
  - apply (dispatch_rejection_mapping
             (Samples.failing (ThrownError "Error" (Some EmptyString))) None
             Samples.emptyConfig (ThrownError "Error" (Some EmptyString)) []).
    + reflexivity.
    + left. reflexivity.
  - apply (dispatch_rejection_mapping
             (Samples.answering Samples.disposedResponse) None
             Samples.emptyConfig
             (ThrownError "Error" (Some "Response has been disposed")) []).
    + reflexivity.
    + right. exists Samples.disposedResponse. split; reflexivity.
Defined.

(** An [AxiosError] that the executor rejects with comes back as it is. *)
Lemma axios_error_passes_through (e : AxiosError) :
  fst (AxiosAdapter.playwrightAdapter (Samples.failing (ThrownAxios e)) None
         Samples.emptyConfig []) = Rejected (ThrownAxios e).
Proof. reflexivity. Qed.

(** ** The fetch-style entry point *)

Lemma playwrightFetch_first_call requestContext options input init :
  exists url bag rest,
    snd (FetchAdapter.playwrightFetch requestContext options input init []) =
      EvFetch url bag :: rest /\
    opt_method bag = Some (FetchAdapter.chooseMethod input init).
Proof.
  unfold FetchAdapter.playwrightFetch, FetchAdapter.toResponse. run_async.
  match goal with
  | |- context [requestContext ?u ?b] =>
      exists u, b; destruct (requestContext u b) as [r|e]
  end.
  - destruct (resp_body r); simpl; eexists; split; reflexivity.
  - eexists; split; reflexivity.
Qed.

(** C10, as the code has it.  The method that the fetch-style entry point
    hands to the executor is the [method] of the init options when that is
    a non-empty string; otherwise the method of the [Request] when the
    input is a [Request]; otherwise "GET".  The chosen string is handed on
    as it is (no change of case). *)
Theorem fetch_method_forwarded_verbatim
    (requestContext : APIRequestContext)
    (options : option FetchAdapter.PlaywrightFetchAdapterOptions)
    (input : FetchAdapter.FetchInput) (init : option FetchAdapter.RequestInit) :
  forwardedMethod requestContext options input init =
  Some match init ≫= FetchAdapter.init_method with
       | Some (String c m) => String c m
       | _ =>
           match input with
           | FetchAdapter.InputRequest request => FetchAdapter.req_method request
           | _ => "GET"
           end
       end.
Proof.
  unfold forwardedMethod.
  destruct (playwrightFetch_first_call requestContext options input init)
    as (url & bag & rest & -> & Hm).
  simpl. rewrite Hm. unfold FetchAdapter.chooseMethod.
  destruct (init ≫= FetchAdapter.init_method) as [[|c m]|]; reflexivity.
Qed.

(** C10 as stated fails when the init options carry the empty string as
    method: the method of the [Request] is handed on instead. *)
Lemma fetch_empty_init_method_not_forwarded :
  FetchAdapter.init_method Samples.emptyMethodInit = Some EmptyString /\
  forwardedMethod (Samples.answering Samples.okResponse) None
    (FetchAdapter.InputRequest Samples.postRequest) (Some Samples.emptyMethodInit)
    = Some "POST" /\
  forwardedMethod (Samples.answering Samples.okResponse) None
    (FetchAdapter.InputRequest Samples.postRequest) (Some Samples.emptyMethodInit)
    <> Some EmptyString.
Proof. split; [reflexivity | split; [reflexivity | vm_compute; discriminate]]. Qed.

(** The fetch-style entry point keeps the case of the method, the
    axios-style translator does not. *)
Lemma method_case_fetch_and_axios :
  forwardedMethod (Samples.answering Samples.okResponse) None
    (FetchAdapter.InputString "https://api.example.com/users")
    (Some (FetchAdapter.mkInit (Some "post") None VUndefined None)) = Some "post" /\
  opt_method (RequestUtils.transformRequest (Samples.withData VUndefined) None)
    = Some "POST".
Proof. split; reflexivity. Qed.

(** ** Multipart form collections *)

Lemma lookup_foldl_insert {V W : Type} (f : V -> W) (pairs : list (string * V))
    (acc : gmap string W) (key : string) :
  foldl (fun acc kv => <[fst kv := f (snd kv)]> acc) acc pairs !! key =
  match lastValue key pairs with
  | Some v => Some (f v)
  | None => acc !! key
  end.
Proof.
  revert acc. induction pairs as [|[k v] rest IH]; intros acc; simpl; [reflexivity|].
  rewrite IH. destruct (lastValue key rest); [reflexivity|].
  destruct (String.eqb_spec k key) as [->|Hne].
  - apply lookup_insert_eq.
  - apply lookup_insert_ne. exact Hne.
Qed.

(** The fetch-style codec does what C7 says: the entry built for a
    file-like field has the file name or "blob", and the type of the value
    or "application/octet-stream"; a string field is kept. *)
Lemma fetch_multipart_fields
    (entries : list (string * FormDataEntryValue))
    (headers : option (gmap string string)) (key : string) :
  multipartOf (FetchAdapter.transformBody (VFormData entries) headers) !! key =
  match lastValue key entries with
  | Some (FDBlob b) =>
      Some (fileDescriptor
              (match blob_name b with Some name => name | None => "blob" end)
              (match blob_type b with
               | EmptyString => "application/octet-stream"
               | type => type
               end)
              b)
  | Some (FDString s) => Some (VStr s)
  | None => None
  end.
Proof.
  unfold FetchAdapter.transformBody, multipartOf. simpl.
  rewrite (lookup_foldl_insert FetchAdapter.multipartField).
  destruct (lastValue key entries) as [[s|b]|]; try reflexivity.
  simpl. unfold JsString.orElse. destruct (blob_type b); reflexivity.
Qed.

(** The axios-style codec builds the same entries, except that the type of
    the value is taken as it is. *)
Lemma axios_multipart_fields (config : AxiosConfig)
    (entries : list (string * FormDataEntryValue)) (key : string) :
  cfg_data config = VFormData entries ->
  multipartOf (RequestUtils.transformData config) !! key =
  match lastValue key entries with
  | Some (FDBlob b) =>
      Some (fileDescriptor
              (match blob_name b with Some name => name | None => "blob" end)
              (blob_type b)
              b)
  | Some (FDString s) => Some (VStr s)
  | None => None
  end.
Proof.
  intros Hdata. unfold RequestUtils.transformData, multipartOf.
  rewrite Hdata. simpl.
  rewrite (lookup_foldl_insert RequestUtils.multipartField).
  destruct (lastValue key entries) as [[s|b]|]; reflexivity.
Qed.

(** C7 at a form collection holding a blob without a type: the axios-style
    codec hands on the empty string as [mimeType], where the fetch-style
    codec puts "application/octet-stream". *)
Theorem axios_multipart_untyped_blob :
  multipartOf
    (RequestUtils.transformData
       (Samples.withData (VFormData [("file", FDBlob Samples.untypedBlob)])))
    !! "file"
    = Some (fileDescriptor "blob" EmptyString Samples.untypedBlob) /\
  multipartOf
    (FetchAdapter.transformBody
       (VFormData [("file", FDBlob Samples.untypedBlob)]) None)
    !! "file"
    = Some (fileDescriptor "blob" "application/octet-stream" Samples.untypedBlob) /\
  fileDescriptor "blob" EmptyString Samples.untypedBlob <>
  fileDescriptor "blob" "application/octet-stream" Samples.untypedBlob.
Proof.
  split; [|split].
  - rewrite (axios_multipart_fields _ [("file", FDBlob Samples.untypedBlob)]) by reflexivity.
    reflexivity.
  - rewrite fetch_multipart_fields. reflexivity.
  - intros H. apply (f_equal (fun v => match v with
                                       | VObject fields => fields !! "mimeType"
                                       | _ => None
                                       end)) in H.
    vm_compute in H. discriminate.
Qed.

(** ** Query parameters *)

Lemma scalarOf_not_nullish value : Js.isNullish (RequestUtils.scalarOf value) = false.
Proof. destruct value; reflexivity. Qed.

Lemma flatten_lookup (l : list (string * JsValue)) (acc : gmap string JsValue)
    (key : string) :
  NoDup l.*1 ->
  foldl (fun acc kv =>
           if Js.isNullish (snd kv) then acc
           else <[fst kv := RequestUtils.scalarOf (snd kv)]> acc) acc l !! key =
  match (list_to_map l : gmap string JsValue) !! key with
  | Some v => if Js.isNullish v then acc !! key else Some (RequestUtils.scalarOf v)
  | None => acc !! key
  end.
Proof.
  revert acc. induction l as [|[k v] rest IH]; intros acc Hnd; simpl.
  - rewrite lookup_empty. reflexivity.
  - apply NoDup_cons in Hnd as [Hfresh Hnd]. rewrite IH by exact Hnd.
    destruct (decide (k = key)) as [->|Hne].
    + rewrite lookup_insert_eq.
      rewrite (proj1 (not_elem_of_list_to_map (M := gmap string) rest key) Hfresh).
      destruct (Js.isNullish v); [reflexivity | apply lookup_insert_eq].
    + rewrite (lookup_insert_ne _ k key) by exact Hne.
      assert (Hstep :
        (if Js.isNullish v then acc else <[k := RequestUtils.scalarOf v]> acc) !! key
        = acc !! key).
      { destruct (Js.isNullish v); [reflexivity | apply lookup_insert_ne; exact Hne]. }
      simpl. rewrite Hstep. reflexivity.
Qed.

(** Flattening the properties of a plain object keeps the properties whose
    value is neither [undefined] nor [null]. *)
Lemma flattenEntries_object (props : gmap string JsValue) (key : string) :
  RequestUtils.flattenEntries (Js.entries (VObject props)) !! key =
  match props !! key with
  | Some v => if Js.isNullish v then None else Some (RequestUtils.scalarOf v)
  | None => None
  end.
Proof.
  unfold RequestUtils.flattenEntries. simpl.
  rewrite flatten_lookup by apply NoDup_fst_map_to_list.
  rewrite list_to_map_to_list, lookup_empty. reflexivity.
Qed.

(** Whatever is flattened, no value of the result is [undefined] or
    [null]. *)
Lemma flattenEntries_values (l : list (string * JsValue)) (key : string) (v : JsValue) :
  RequestUtils.flattenEntries l !! key = Some v -> Js.isNullish v = false.
Proof.
  unfold RequestUtils.flattenEntries.
  assert (Hgen : forall acc : gmap string JsValue,
            (forall k w, acc !! k = Some w -> Js.isNullish w = false) ->
            forall k w,
              foldl (fun acc kv =>
                       if Js.isNullish (snd kv) then acc
                       else <[fst kv := RequestUtils.scalarOf (snd kv)]> acc) acc l
                !! k = Some w ->
              Js.isNullish w = false).
  { induction l as [|[k0 v0] rest IH]; intros acc Hacc k w; simpl; [apply Hacc|].
    apply IH. intros k' w'. destruct (Js.isNullish v0); [apply Hacc|].
    rewrite lookup_insert. case_decide.
    - intros [= <-]. apply scalarOf_not_nullish.
    - apply Hacc. }
  apply (Hgen ∅). intros k w. rewrite lookup_empty. discriminate.
Qed.

(** The first half of C8 holds on both paths of [transformParams]: no
    entry of the translated parameters is [undefined] or [null]. *)
Lemma transformParams_values (config : AxiosConfig) (params : gmap string JsValue)
    (key : string) (v : JsValue) :
  RequestUtils.transformParams config = Some params ->
  params !! key = Some v ->
  Js.isNullish v = false.
Proof.
  unfold RequestUtils.transformParams.
  destruct (Js.truthy (cfg_params config)); simpl; [|discriminate].
  destruct (cfg_params config) eqn:Hp;
    try (destruct (Nat.ltb 0 _); [|discriminate];
         intros [= <-]; apply flattenEntries_values).
  intros [= <-]. rewrite lookup_fmap.
  destruct (Js.fromEntries pairs !! key); simpl; [|discriminate].
  intros [= <-]. reflexivity.
Qed.

(** For a plain object the translated parameters are the properties that
    are neither [undefined] nor [null], and they are absent when there is
    no such property. *)
Lemma transformParams_plain_object (config : AxiosConfig) (props : gmap string JsValue) :
  cfg_params config = VObject props ->
  match RequestUtils.transformParams config with
  | Some params =>
      params <> ∅ /\
      forall key, params !! key =
        match props !! key with
        | Some v => if Js.isNullish v then None else Some (RequestUtils.scalarOf v)
        | None => None
        end
  | None =>
      forall key v, props !! key = Some v -> Js.isNullish v = true
  end.
Proof.
  intros Hp. unfold RequestUtils.transformParams. rewrite Hp. simpl.
  destruct (Nat.ltb_spec 0 (size (RequestUtils.flattenEntries (map_to_list props))))
    as [Hpos|Hzero].
  - split.
    + intros Hempty. rewrite Hempty, map_size_empty in Hpos. lia.
    + intros key. apply flattenEntries_object.
  - intros key v Hkv.
    assert (Hsize : size (RequestUtils.flattenEntries (map_to_list props)) = 0) by lia.
    apply map_size_empty_inv in Hsize.
    pose proof (flattenEntries_object props key) as Hl. simpl in Hl.
    rewrite Hsize, lookup_empty, Hkv in Hl.
    destruct (Js.isNullish v); [reflexivity|discriminate].
Qed.

(** The result of the loop path is never an empty mapping. *)
Lemma transformParams_loop_never_empty (config : AxiosConfig) (params : gmap string JsValue) :
  RequestUtils.isURLSearchParams (cfg_params config) = false ->
  RequestUtils.transformParams config = Some params ->
  params <> ∅.
Proof.
  unfold RequestUtils.transformParams. intros Hq.
  destruct (Js.truthy (cfg_params config)); cbn [negb]; [|discriminate].
  assert (Hloop : forall l,
            (if Nat.ltb 0 (size (RequestUtils.flattenEntries l))
             then Some (RequestUtils.flattenEntries l) else None) = Some params ->
            params <> ∅).
  { intros l. destruct (Nat.ltb_spec 0 (size (RequestUtils.flattenEntries l))) as [Hpos|];
      [|discriminate].
    intros [= <-] Hempty. rewrite Hempty, map_size_empty in Hpos. lia. }
  destruct (cfg_params config); try discriminate Hq; apply Hloop.
Qed.

(** C8 at an empty query-parameter collection: [transformParams] returns
    the empty mapping, not [undefined]; for the empty plain object it
    returns [undefined]. *)
Theorem transformParams_empty_collection :
  RequestUtils.transformParams (Samples.withParams (VURLSearchParams [])) = Some ∅ /\
  RequestUtils.transformParams (Samples.withParams (VObject ∅)) = None.
Proof. split; reflexivity. Qed.

(** ** Regular expressions: what [testAnchored] decides *)

Module RegexFacts.

Import Regex.

Lemma app_nil_l (s : string) : EmptyString +:+ s = s.
Proof. reflexivity. Qed.

Lemma app_cons (c : ascii) (u v : string) : String c u +:+ v = String c (u +:+ v).
Proof. reflexivity. Qed.

Lemma app_nil_r (s : string) : s +:+ EmptyString = s.
Proof. induction s as [|c s IH]; [reflexivity|]. rewrite app_cons, IH. reflexivity. Qed.

Lemma app_assoc (u v w : string) : (u +:+ v) +:+ w = u +:+ (v +:+ w).
Proof.
  induction u as [|c u IH]; [reflexivity|].
  rewrite !app_cons, IH. reflexivity.
Qed.

Lemma app_eq_nil (u v : string) : u +:+ v = EmptyString -> u = EmptyString /\ v = EmptyString.
Proof. destruct u; [auto | discriminate]. Qed.

Lemma app_eq_cons (u v : string) (c : ascii) (w : string) :
  u +:+ v = String c w ->
  (u = EmptyString /\ v = String c w) \/
  (exists u', u = String c u' /\ w = u' +:+ v).
Proof.
  destruct u as [|a u]; [left; auto|].
  rewrite app_cons. intros [= -> <-]. right. eauto.
Qed.

Lemma matches_nullable r s : matches r s -> s = EmptyString -> nullable r = true.
Proof.
  induction 1; intros Hs; simpl; try reflexivity; try discriminate.
  - apply app_eq_nil in Hs as [-> ->]. rewrite IHmatches1, IHmatches2; reflexivity.
  - rewrite IHmatches by exact Hs. reflexivity.
  - rewrite IHmatches by exact Hs. apply orb_true_r.
Qed.

Lemma nullable_matches r : nullable r = true -> matches r EmptyString.
Proof.
  induction r; simpl; intros H; try discriminate.
  - constructor.
  - apply andb_true_iff in H as [H1 H2].
    change EmptyString with (EmptyString +:+ EmptyString). constructor; auto.
  - apply orb_true_iff in H as [H|H]; [apply MAltL | apply MAltR]; auto.
  - constructor.
Qed.

Lemma deriv_sound c r : forall u, matches (deriv c r) u -> matches r (String c u).
Proof.
  induction r; simpl; intros u H.
  - inversion H.
  - inversion H.
  - destruct (p c) eqn:Hp; inversion H; subst. constructor. exact Hp.
  - destruct (nullable r1) eqn:Hn.
    + inversion H; subst.
      * match goal with Hs : matches (Seq _ _) _ |- _ => inversion Hs; subst end.
        rewrite <- app_cons. constructor; auto.
      * rewrite <- (app_nil_l (String c u)). constructor; auto.
        apply nullable_matches. exact Hn.
    + inversion H; subst. rewrite <- app_cons. constructor; auto.
  - inversion H; subst; [apply MAltL | apply MAltR]; auto.
  - inversion H; subst. rewrite <- app_cons. constructor; auto.
Qed.

Lemma deriv_complete r s :
  matches r s -> forall c u, s = String c u -> matches (deriv c r) u.
Proof.
  induction 1; intros a w Hs; simpl; try discriminate.
  - injection Hs as -> <-. rewrite H. constructor.
  - apply app_eq_cons in Hs as [[-> ->] | (u' & -> & ->)].
    + rewrite (matches_nullable r EmptyString) by auto.
      apply MAltR. eapply IHmatches2; reflexivity.
    + destruct (nullable r).
      * apply MAltL. constructor; [eapply IHmatches1; reflexivity | assumption].
      * constructor; [eapply IHmatches1; reflexivity | assumption].
  - apply MAltL. eapply IHmatches; eassumption.
  - apply MAltR. eapply IHmatches; eassumption.
  - apply app_eq_cons in Hs as [[-> ->] | (u' & -> & ->)].
    + apply (IHmatches2 a w eq_refl).
    + constructor; [eapply IHmatches1; reflexivity | assumption].
Qed.

(** [testAnchored r s] holds exactly when [r] matches a prefix of [s]. *)
Lemma testAnchored_spec r s :
  testAnchored r s = true <-> exists u v, s = u +:+ v /\ matches r u.
Proof.
  revert r. induction s as [|c s IH]; intros r; simpl.
  - rewrite orb_false_r. split.
    + intros Hn. exists EmptyString, EmptyString. split; [reflexivity|].
      apply nullable_matches. exact Hn.
    + intros (u & v & Huv & Hm). symmetry in Huv.
      apply app_eq_nil in Huv as [-> ->].
      eapply matches_nullable; eauto.
  - split.
    + intros H. apply orb_true_iff in H as [Hn|Ht].
      * exists EmptyString, (String c s). split; [reflexivity|].
        apply nullable_matches. exact Hn.
      * apply IH in Ht as (u & v & -> & Hm).
        exists (String c u), v. split; [reflexivity|].
        apply deriv_sound. exact Hm.
    + intros (u & v & Huv & Hm). symmetry in Huv.
      apply app_eq_cons in Huv as [[-> ->] | (u' & -> & ->)].
      * rewrite (matches_nullable r EmptyString) by auto. reflexivity.
      * apply orb_true_iff. right. apply IH.
        exists u', v. split; [reflexivity|].
        eapply deriv_complete; eauto.
Qed.

Lemma matches_Chr_inv c s : matches (Chr c) s -> s = String c EmptyString.
Proof.
  unfold Chr. inversion 1; subst.
  match goal with Hp : (if ascii_dec ?x c then _ else _) = true |- _ =>
    destruct (ascii_dec x c); [subst; reflexivity | discriminate]
  end.
Qed.

Lemma matches_Chr c : matches (Chr c) (String c EmptyString).
Proof. constructor. destruct (ascii_dec c c); congruence. Qed.

Lemma matches_Star_Class p s :
  matches (Star (Class p)) s <-> allChars p s = true.
Proof.
  split.
  - remember (Star (Class p)) as r eqn:Hr. induction 1; try discriminate.
    + reflexivity.
    + injection Hr as ->.
      match goal with Hc : matches (Class p) _ |- _ => inversion Hc; subst end.
      rewrite app_cons, app_nil_l. simpl.
      apply andb_true_iff. split; [assumption | apply IHmatches2; reflexivity].
  - induction s as [|c s IH]; simpl; intros H.
    + constructor.
    + apply andb_true_iff in H as [Hc Hs].
      change (String c s) with (String c EmptyString +:+ s).
      constructor; [constructor; exact Hc | apply IH; exact Hs].
Qed.

End RegexFacts.

(** ** The URL resolver *)

(** The pattern of [isAbsoluteURL] accepts the URLs with a scheme followed
    by [://] and the URLs with two leading slashes, and no other. *)
Lemma isAbsoluteURL_iff (url : string) :
  isAbsoluteURL url = true <-> hasScheme url \/ hasLeadingSlashes url.
Proof.
  unfold isAbsoluteURL. rewrite RegexFacts.testAnchored_spec. split.
  - intros (u & v & -> & Hm).
    unfold ABSOLUTE_URL_REGEX, Regex.Opt in Hm.
    inversion Hm as [| |r s u1 u2 Hopt Hslashes| | | |]; subst.
    inversion Hslashes as [| |r s w1 w2 Hs1 Hs2| | | |]; subst.
    apply RegexFacts.matches_Chr_inv in Hs1 as ->.
    apply RegexFacts.matches_Chr_inv in Hs2 as ->.
    inversion Hopt as [| | |r s w Hscheme|r s w Heps| |]; subst.
    + left.
      inversion Hscheme as [| |r s w1 w2 Hstart Htail| | | |]; subst.
      inversion Hstart as [|p c Hc| | | | |]; subst.
      inversion Htail as [| |r s w3 w4 Hstar Hcolon| | | |]; subst.
      apply RegexFacts.matches_Chr_inv in Hcolon as ->.
      apply RegexFacts.matches_Star_Class in Hstar.
      exists c, w3, v. split; [|split; assumption].
      rewrite !RegexFacts.app_assoc. reflexivity.
    + right. inversion Heps; subst. exists v. reflexivity.
  - intros [(c & scheme & rest & -> & Hc & Hs) | (rest & ->)].
    + exists (String c (scheme +:+ ":") +:+ "//"), rest. split.
      * rewrite !RegexFacts.app_cons, !RegexFacts.app_assoc. reflexivity.
      * unfold ABSOLUTE_URL_REGEX, Regex.Opt.
        constructor.
        -- apply Regex.MAltL.
           change (String c (scheme +:+ ":"))
             with (String c EmptyString +:+ (scheme +:+ ":")).
           constructor; [constructor; exact Hc|].
           constructor; [apply RegexFacts.matches_Star_Class; exact Hs|].
           apply RegexFacts.matches_Chr.
        -- change "//" with ("/" +:+ "/").
           constructor; apply RegexFacts.matches_Chr.
    + exists "//", rest. split; [reflexivity|].
      unfold ABSOLUTE_URL_REGEX, Regex.Opt.
      change "//" with (EmptyString +:+ ("/" +:+ "/")).
      constructor; [apply Regex.MAltR; constructor|].
      constructor; apply RegexFacts.matches_Chr.
Qed.

Lemma buildUrl_absolute (config : AxiosConfig) :
  isAbsoluteURL (default EmptyString (cfg_url config)) = true ->
  RequestUtils.buildUrl config = default EmptyString (cfg_url config).
Proof.
  intros Habs. unfold RequestUtils.buildUrl. rewrite Habs.
  destruct (cfg_baseURL config); [|reflexivity].
  rewrite andb_false_r. reflexivity.
Qed.

(** C2.  When the URL of a request descriptor has a scheme followed by
    [://], or starts with two slashes (protocol-relative; further slashes
    may follow), [buildUrl] returns it character for character, whatever
    the base URL is. *)
Theorem absolute_url_returned_unchanged (config : AxiosConfig) (url : string) :
  cfg_url config = Some url ->
  hasScheme url \/ hasLeadingSlashes url ->
  RequestUtils.buildUrl config = url.
Proof.
  intros Hurl Hshape. apply isAbsoluteURL_iff in Hshape.
  rewrite buildUrl_absolute; rewrite Hurl; [reflexivity | exact Hshape].
Qed.

Lemma absolute_url_returned_unchanged_witness :
  RequestUtils.buildUrl (Samples.withUrl "https://api.example.com/v1" "///path") = "///path" /\
  RequestUtils.buildUrl (Samples.withUrl "https://api.example.com/v1" "HTTP://other.example/x")
    = "HTTP://other.example/x".
Proof.
  split.
  - apply (absolute_url_returned_unchanged
             (Samples.withUrl "https://api.example.com/v1" "///path") "///path").
    + reflexivity.
    + right. exists "/path". reflexivity.
  - apply (absolute_url_returned_unchanged
             (Samples.withUrl "https://api.example.com/v1" "HTTP://other.example/x")
             "HTTP://other.example/x").
    + reflexivity.
    + left. exists "H"%char, "TTP", "other.example/x". repeat split; reflexivity.
Defined.

(** The examples of the specification for the other branch of [buildUrl]. *)
Lemma buildUrl_examples :
  RequestUtils.buildUrl (Samples.withUrl "https://a.com///" "users") = "https://a.com/users" /\
  RequestUtils.buildUrl (Samples.withUrl "https://a.com" EmptyString) = "https://a.com" /\
  RequestUtils.buildUrl Samples.emptyConfig = EmptyString.
Proof. repeat split; reflexivity. Qed.

(** ** Scenarios of the specification *)

(** A url-encoded string body becomes the [form] mapping and nothing
    else. *)
Lemma urlencoded_string_scenario :
  let bag :=
    RequestUtils.transformRequest
      (mkConfig (Some "/x") None (Some "post")
         (Some (AxiosHeaders
            {[ "Content-Type" := VStr "application/x-www-form-urlencoded" ]}))
         VUndefined (VStr "a=1&b=2") None None None None None)
      None in
  opt_method bag = Some "POST" /\
  opt_form bag = Some {[ "a" := VStr "1"; "b" := VStr "2" ]} /\
  opt_data bag = None /\ opt_multipart bag = None.
Proof. vm_compute. repeat split; reflexivity. Qed.

Lemma status_text_scenarios :
  getStatusText 204 = "No Content" /\ getStatusText 999 = "Unknown".
Proof. split; reflexivity. Qed.

(** A timeout of zero is not handed to the executor; an override of the
    adapter wins over the redirect limit of the descriptor. *)
Lemma policy_knob_scenarios :
  opt_timeout
    (RequestUtils.transformRequest
       (mkConfig None None None None VUndefined VUndefined (Some 0%Z) (Some 5%Z)
          None None None)
       (Some (mkAdapterOptions None None (Some 2%Z) None))) = None /\
  opt_maxRedirects
    (RequestUtils.transformRequest
       (mkConfig None None None None VUndefined VUndefined (Some 0%Z) (Some 5%Z)
          None None None)
       (Some (mkAdapterOptions None None (Some 2%Z) None))) = Some 2%Z.
Proof. split; reflexivity. Qed.

(** * Further properties *)

Arguments ascii_dec : simpl never.

(** ** Joining a base URL and a relative URL *)

Lemma stripLeadingSlashes_spec (s : string) :
  exists n, s = slashes n +:+ JsString.stripLeadingSlashes s /\
            JsString.startsWith "/" (JsString.stripLeadingSlashes s) = false.
Proof.
  induction s as [|c s IH]; simpl.
  - exists 0. split; reflexivity.
  - unfold JsString.isSlash, JsString.slash.
    destruct (ascii_dec c "/") as [->|Hne].
    + destruct IH as (n & Hs & Hr). exists (S n). split; [|exact Hr].
      simpl. rewrite RegexFacts.app_cons. f_equal. exact Hs.
    + exists 0. split; [reflexivity|]. simpl.
      destruct (ascii_dec "/" c); [congruence | reflexivity].
Qed.

Lemma stripTrailingSlashes_spec (s : string) :
  exists n, s = JsString.stripTrailingSlashes s +:+ slashes n /\
            endsWithSlash (JsString.stripTrailingSlashes s) = false.
Proof.
  induction s as [|c s IH]; simpl.
  - exists 0. split; reflexivity.
  - destruct IH as (n & Hs & Hr).
    destruct (JsString.stripTrailingSlashes s) as [|a r] eqn:Hstrip.
    + unfold JsString.isSlash, JsString.slash.
      destruct (ascii_dec c "/") as [->|Hne].
      * exists (S n). split; [|reflexivity].
        rewrite Hs. reflexivity.
      * exists n. split.
        -- rewrite Hs. reflexivity.
        -- simpl. unfold JsString.isSlash, JsString.slash.
           destruct (ascii_dec c "/"); [congruence | reflexivity].
    + exists n. split.
      * rewrite RegexFacts.app_cons. f_equal. exact Hs.
      * exact Hr.
Qed.

Lemma stripLeadingSlashes_slashes (n : nat) (s : string) :
  JsString.stripLeadingSlashes (slashes n +:+ s) = JsString.stripLeadingSlashes s.
Proof.
  induction n as [|n IH]; [reflexivity|].
  change (slashes (S n) +:+ s) with (String JsString.slash (slashes n +:+ s)).
  simpl. unfold JsString.isSlash.
  destruct (ascii_dec JsString.slash JsString.slash); [exact IH | congruence].
Qed.

Lemma stripTrailingSlashes_only_slashes (n : nat) :
  JsString.stripTrailingSlashes (slashes n) = EmptyString.
Proof.
  induction n as [|n IH]; [reflexivity|].
  simpl. rewrite IH. unfold JsString.isSlash.
  destruct (ascii_dec JsString.slash JsString.slash); [reflexivity | congruence].
Qed.

Lemma stripTrailingSlashes_slashes (n : nat) (s : string) :
  JsString.stripTrailingSlashes (s +:+ slashes n) = JsString.stripTrailingSlashes s.
Proof.
  induction s as [|c s IH].
  - rewrite RegexFacts.app_nil_l. apply stripTrailingSlashes_only_slashes.
  - rewrite RegexFacts.app_cons. simpl. rewrite IH. reflexivity.
Qed.

Lemma nonEmpty_slashes_app (m : nat) (s : string) :
  JsString.nonEmpty s = true -> JsString.nonEmpty (slashes m +:+ s) = true.
Proof. destruct m; [intros H; exact H | reflexivity]. Qed.

(** X1.  For a relative URL that is not empty, [combineURLs] cuts the base
    after its last character that is not a slash, cuts the relative URL
    before its first character that is not a slash, and joins the two
    parts with one slash: only runs of slashes at the joint are removed,
    and exactly one separator stands between the parts. *)
Theorem combineURLs_single_separator (baseURL relativeURL : string) :
  JsString.nonEmpty relativeURL = true ->
  exists (b r : string) (n m : nat),
    baseURL = b +:+ slashes n /\
    relativeURL = slashes m +:+ r /\
    endsWithSlash b = false /\
    JsString.startsWith "/" r = false /\
    combineURLs baseURL relativeURL = b +:+ "/" +:+ r.
Proof.
  intros Hrel.
  destruct (stripTrailingSlashes_spec baseURL) as (n & Hb & Hbe).
  destruct (stripLeadingSlashes_spec relativeURL) as (m & Hr & Hrs).
  exists (JsString.stripTrailingSlashes baseURL),
         (JsString.stripLeadingSlashes relativeURL), n, m.
  repeat split; try assumption.
  unfold combineURLs. rewrite Hrel. reflexivity.
Qed.

Lemma combineURLs_single_separator_witness :
  exists (b r : string) (n m : nat),
    "https://a.com///" = b +:+ slashes n /\
    "//users/1" = slashes m +:+ r /\
    endsWithSlash b = false /\
    JsString.startsWith "/" r = false /\
    combineURLs "https://a.com///" "//users/1" = b +:+ "/" +:+ r.
Proof.
  apply (combineURLs_single_separator "https://a.com///" "//users/1").
  reflexivity.
Defined.

(** X2.  Slashes added at the end of the base or at the start of a
    relative URL that is not empty do not change the result of
    [combineURLs]. *)
Theorem combineURLs_ignores_joint_slashes
    (baseURL relativeURL : string) (n m : nat) :
  JsString.nonEmpty relativeURL = true ->
  combineURLs (baseURL +:+ slashes n) (slashes m +:+ relativeURL) =
  combineURLs baseURL relativeURL.
Proof.
  intros Hrel. unfold combineURLs.
  rewrite (nonEmpty_slashes_app m relativeURL Hrel), Hrel. simpl.
  rewrite stripTrailingSlashes_slashes, stripLeadingSlashes_slashes. reflexivity.
Qed.

Lemma combineURLs_ignores_joint_slashes_witness :
  combineURLs ("https://a.com" +:+ slashes 2) (slashes 3 +:+ "users") =
  combineURLs "https://a.com" "users".
Proof.
  apply (combineURLs_ignores_joint_slashes "https://a.com" "users" 2 3).
  reflexivity.
Defined.

(** ** Absolute and relative URLs *)

Lemma startsWith_app (p s : string) : JsString.startsWith p (p +:+ s) = true.
Proof.
  induction p as [|c p IH]; [reflexivity|].
  rewrite RegexFacts.app_cons. simpl.
  destruct (ascii_dec c c); [exact IH | congruence].
Qed.

Lemma includes_app (p a b : string) : JsString.includes p (a +:+ p +:+ b) = true.
Proof.
  induction a as [|c a IH].
  - rewrite RegexFacts.app_nil_l.
    destruct (p +:+ b) eqn:Hpb; simpl; rewrite <- ?Hpb, startsWith_app; reflexivity.
  - rewrite RegexFacts.app_cons. simpl. rewrite IH. apply orb_true_r.
Qed.

(** X3.  [isAbsoluteURL] accepts a URL exactly when it begins with a scheme
    (a letter, then letters, digits, [+], [-] or [.]) followed by [://],
    or begins with two slashes. *)
Theorem isAbsoluteURL_shapes (url : string) :
  isAbsoluteURL url = true <-> hasScheme url \/ hasLeadingSlashes url.
Proof. exact (isAbsoluteURL_iff url). Qed.

Lemma not_absolute_without_marker (url : string) :
  JsString.includes "://" url = false ->
  JsString.startsWith "//" url = false ->
  isAbsoluteURL url = false.
Proof.
  intros Hinc Hstart. destruct (isAbsoluteURL url) eqn:Habs; [|reflexivity].
  apply isAbsoluteURL_iff in Habs as [(c & scheme & rest & -> & _) | (rest & ->)].
  - change (String c (scheme +:+ "://" +:+ rest))
      with (String c scheme +:+ "://" +:+ rest) in Hinc.
    rewrite includes_app in Hinc. discriminate.
  - rewrite startsWith_app in Hstart. discriminate.
Qed.

(** X4.  With a base URL that is not empty, a URL that is not empty, has no
    [://] in it and does not begin with two slashes is joined to the base:
    [buildUrl] returns the base without its trailing slashes, one slash,
    and the URL without its leading slashes. *)
Theorem buildUrl_joins_relative_url (config : AxiosConfig) (baseURL url : string) :
  cfg_baseURL config = Some baseURL ->
  cfg_url config = Some url ->
  JsString.nonEmpty baseURL = true ->
  JsString.nonEmpty url = true ->
  JsString.includes "://" url = false ->
  JsString.startsWith "//" url = false ->
  RequestUtils.buildUrl config =
    JsString.stripTrailingSlashes baseURL +:+ "/" +:+ JsString.stripLeadingSlashes url.
Proof.
  intros Hbase Hurl Hb Hu Hinc Hstart.
  unfold RequestUtils.buildUrl. rewrite Hbase, Hurl. simpl.
  rewrite Hb, (not_absolute_without_marker url Hinc Hstart). simpl.
  unfold combineURLs. rewrite Hu. reflexivity.
Qed.

Lemma buildUrl_joins_relative_url_witness :
  RequestUtils.buildUrl (Samples.withUrl "https://api.example.com/v1/" "/users?id=1")
    = "https://api.example.com/v1/users?id=1".
Proof.
  apply (buildUrl_joins_relative_url
           (Samples.withUrl "https://api.example.com/v1/" "/users?id=1")
           "https://api.example.com/v1/" "/users?id=1");
    reflexivity.
Defined.

(** ** Status text *)

Lemma getStatusText_nonEmpty (status : Z) :
  JsString.nonEmpty (getStatusText status) = true.
Proof.
  unfold getStatusText, statusTexts. cbn [lookupStatus].
  repeat match goal with
         | |- context [Z.eqb ?k status] => destruct (Z.eqb k status); [reflexivity|]
         end.
  reflexivity.
Qed.

Lemma orElse_nonEmpty (a b : string) :
  JsString.nonEmpty b = true -> JsString.nonEmpty (JsString.orElse a b) = true.
Proof. unfold JsString.orElse. destruct a; auto. Qed.

(** X5.  The status text of a translated response is never empty: both
    the axios-style descriptor and the fetch-style [Response] carry the
    text of the executor response when it has one and otherwise the text
    of the table, which is "Unknown" for a code that is not listed. *)
Theorem translated_status_text_never_empty
    (response : APIResponse) (config : AxiosConfig) (trace : list Event) :
  (forall axiosResponse,
     fst (ResponseUtils.transformResponse response config trace) = Resolved axiosResponse ->
     ar_statusText axiosResponse <> EmptyString) /\
  (forall res,
     fst (FetchAdapter.toResponse response trace) = Resolved res ->
     FetchAdapter.res_statusText res <> EmptyString).
Proof.
  assert (Hne : forall t, JsString.nonEmpty t = true -> t <> EmptyString).
  { intros t Ht ->. discriminate. }
  split.
  - intros r. unfold ResponseUtils.transformResponse, Async.bind, Async.ret.
    destruct (ResponseUtils.parseResponseBody response config trace) as [[v|e] t];
      simpl; intros [= <-]; simpl.
    apply Hne, orElse_nonEmpty, getStatusText_nonEmpty.
  - intros r. unfold FetchAdapter.toResponse. run_async.
    destruct (resp_body response); simpl; intros [= <-]; simpl.
    apply Hne, orElse_nonEmpty, getStatusText_nonEmpty.
Qed.

Lemma translated_status_text_never_empty_witness :
  exists axiosResponse,
    fst (ResponseUtils.transformResponse
           (mkAPIResponse 299%Z EmptyString ∅
              (Resolved []) (Resolved EmptyString) (Resolved VNull))
           Samples.emptyConfig []) = Resolved axiosResponse /\
    ar_statusText axiosResponse = "Unknown" /\
    ar_statusText axiosResponse <> EmptyString.
Proof.
  eexists. split; [reflexivity|]. split; [reflexivity|].
  apply (translated_status_text_never_empty
           (mkAPIResponse 299%Z EmptyString ∅
              (Resolved []) (Resolved EmptyString) (Resolved VNull))
           Samples.emptyConfig []).
  reflexivity.
Defined.

(** X6.  The descriptor that [transformResponse] resolves with has the
    status and the headers of the executor response as they are, the
    status text of the executor response when that is not empty, the
    request descriptor, the executor response itself as [request], and as
    data what [parseResponseBody] resolved with. *)
Theorem transformResponse_passes_through
    (response : APIResponse) (config : AxiosConfig) (trace : list Event)
    (axiosResponse : AxiosResponse) :
  fst (ResponseUtils.transformResponse response config trace) = Resolved axiosResponse ->
  ar_status axiosResponse = resp_status response /\
  ar_headers axiosResponse = resp_headers response /\
  (resp_statusText response <> EmptyString ->
   ar_statusText axiosResponse = resp_statusText response) /\
  (resp_statusText response = EmptyString ->
   ar_statusText axiosResponse = getStatusText (resp_status response)) /\
  ar_config axiosResponse = config /\
  ar_request axiosResponse = response /\
  fst (ResponseUtils.parseResponseBody response config trace)
    = Resolved (ar_data axiosResponse).
Proof.
  unfold ResponseUtils.transformResponse, Async.bind, Async.ret.
  destruct (ResponseUtils.parseResponseBody response config trace) as [[v|e] t];
    simpl; intros [= <-]; simpl.
  repeat split.
  - intros Hne. unfold JsString.orElse.
    destruct (resp_statusText response); [congruence | reflexivity].
  - intros ->. reflexivity.
Qed.

Lemma transformResponse_passes_through_witness :
  exists axiosResponse,
    fst (ResponseUtils.transformResponse Samples.notFoundResponse
           Samples.emptyConfig []) = Resolved axiosResponse /\
    ar_status axiosResponse = 404%Z /\
    ar_statusText axiosResponse = "Not Found".
Proof.
  eexists. split; [reflexivity|].
  destruct (transformResponse_passes_through Samples.notFoundResponse
              Samples.emptyConfig [] _ eq_refl)
    as (Hstatus & _ & Htext & _).
  split; [exact Hstatus | apply Htext; discriminate].
Defined.

(** ** Header translation of the axios-style translator *)

Lemma foldl_drop_lookup {W : Type} (drop : JsValue -> bool) (f : JsValue -> W)
    (l : list (string * JsValue)) (acc : gmap string W) (key : string) :
  NoDup l.*1 ->
  foldl (fun acc kv => if drop (snd kv) then acc else <[fst kv := f (snd kv)]> acc)
    acc l !! key =
  match (list_to_map l : gmap string JsValue) !! key with
  | Some v => if drop v then acc !! key else Some (f v)
  | None => acc !! key
  end.
Proof.
  revert acc. induction l as [|[k v] rest IH]; intros acc Hnd; simpl.
  - rewrite lookup_empty. reflexivity.
  - apply NoDup_cons in Hnd as [Hfresh Hnd]. rewrite IH by exact Hnd.
    destruct (decide (k = key)) as [->|Hne].
    + rewrite lookup_insert_eq.
      rewrite (proj1 (not_elem_of_list_to_map (M := gmap string) rest key) Hfresh).
      destruct (drop v); [reflexivity | apply lookup_insert_eq].
    + rewrite (lookup_insert_ne _ k key) by exact Hne.
      assert (Hstep :
        (if drop v then acc else <[k := f v]> acc) !! key = acc !! key).
      { destruct (drop v); [reflexivity | apply lookup_insert_ne; exact Hne]. }
      simpl. rewrite Hstep. reflexivity.
Qed.

Lemma kept_not_nullish (v : JsValue) :
  AxiosHeadersApi.kept v = true -> Js.isNullish v = false.
Proof. unfold AxiosHeadersApi.kept. destruct (Js.isNullish v); [discriminate | reflexivity]. Qed.

(** X7.  The translated headers hold, under the same name, the string form
    of every header value that is neither [undefined] nor [null] (for an
    [AxiosHeaders] instance: nor [false], which its [toJSON] leaves out),
    and nothing else; without headers the mapping is empty. *)
Theorem axios_headers_translated (config : AxiosConfig) (key : string) :
  RequestUtils.transformHeaders config !! key =
  match cfg_headers config with
  | None => None
  | Some (PlainHeaders e) =>
      match e !! key with
      | Some v => if Js.isNullish v then None else Some (Js.toString v)
      | None => None
      end
  | Some (AxiosHeaders e) =>
      match e !! key with
      | Some v => if AxiosHeadersApi.kept v then Some (Js.toString v) else None
      | None => None
      end
  end.
Proof.
  unfold RequestUtils.transformHeaders.
  destruct (cfg_headers config) as [[e|e]|]; [| |apply lookup_empty].
  - rewrite (foldl_drop_lookup Js.isNullish Js.toString) by apply NoDup_fst_map_to_list.
    rewrite list_to_map_to_list, lookup_empty.
    unfold AxiosHeadersApi.toJSON.
    destruct (e !! key) as [v|] eqn:He.
    + destruct (AxiosHeadersApi.kept v) eqn:Hk.
      * rewrite (proj2 (map_lookup_filter_Some _ e key v)) by (split; [exact He | exact Hk]).
        rewrite (kept_not_nullish v Hk). reflexivity.
      * rewrite (proj2 (map_lookup_filter_None _ e key)); [reflexivity|].
        right. intros x Hx. rewrite He in Hx. injection Hx as <-. simpl.
        rewrite Hk. discriminate.
    + rewrite (proj2 (map_lookup_filter_None _ e key)); [reflexivity|].
      left. exact He.
  - rewrite (foldl_drop_lookup Js.isNullish Js.toString) by apply NoDup_fst_map_to_list.
    rewrite list_to_map_to_list, lookup_empty. reflexivity.
Qed.

(** ** Query-parameter collections *)

Lemma fromEntries_lookup {V : Type} (pairs : list (string * V)) (key : string) :
  Js.fromEntries pairs !! key = lastValue key pairs.
Proof.
  pose proof (lookup_foldl_insert (fun v : V => v) pairs ∅ key) as H.
  unfold Js.fromEntries. simpl in H. rewrite H.
  destruct (lastValue key pairs); [reflexivity | apply lookup_empty].
Qed.

(** X8.  Query parameters given as a [URLSearchParams] are translated to a
    mapping that has, for every name, the string value of the last pair
    with that name. *)
Theorem query_collection_params (config : AxiosConfig) (pairs : list (string * string)) :
  cfg_params config = VURLSearchParams pairs ->
  exists params,
    RequestUtils.transformParams config = Some params /\
    forall key, params !! key = VStr <$> lastValue key pairs.
Proof.
  intros Hp. unfold RequestUtils.transformParams. rewrite Hp. simpl.
  eexists. split; [reflexivity|].
  intros key. rewrite lookup_fmap, fromEntries_lookup. reflexivity.
Qed.

Lemma query_collection_params_witness :
  exists params,
    RequestUtils.transformParams
      (Samples.withParams (VURLSearchParams [("a", "1"); ("b", "2"); ("a", "3")]))
      = Some params /\
    params !! "a" = Some (VStr "3") /\ params !! "b" = Some (VStr "2").
Proof.
  destruct (query_collection_params
              (Samples.withParams (VURLSearchParams [("a", "1"); ("b", "2"); ("a", "3")]))
              [("a", "1"); ("b", "2"); ("a", "3")] eq_refl)
    as (params & Hrun & Hlookup).
  exists params. split; [exact Hrun|].
  split; rewrite Hlookup; reflexivity.
Defined.

(** X9.  A body given as a [URLSearchParams] becomes the [form] mapping
    (for every name the value of the last pair with that name), and
    nothing else, in both codecs and whatever content type the headers
    declare. *)
Theorem query_collection_body
    (config : AxiosConfig) (pairs : list (string * string))
    (headers : option (gmap string string)) :
  cfg_data config = VURLSearchParams pairs ->
  exists form,
    RequestUtils.transformData config = mkBody None (Some form) None /\
    FetchAdapter.transformBody (VURLSearchParams pairs) headers
      = mkBody None (Some form) None /\
    forall key, form !! key = VStr <$> lastValue key pairs.
Proof.
  intros Hd. unfold RequestUtils.transformData. rewrite Hd. simpl.
  eexists. split; [reflexivity|]. split; [reflexivity|].
  intros key. rewrite lookup_fmap, fromEntries_lookup. reflexivity.
Qed.

Lemma query_collection_body_witness :
  exists form,
    RequestUtils.transformData
      (mkConfig None None None
         (Some (AxiosHeaders {[ "Content-Type" := VStr "multipart/form-data" ]}))
         VUndefined (VURLSearchParams [("q", "x"); ("q", "y")])
         None None None None None)
      = mkBody None (Some form) None /\
    form !! "q" = Some (VStr "y").
Proof.
  destruct (query_collection_body
              (mkConfig None None None
                 (Some (AxiosHeaders {[ "Content-Type" := VStr "multipart/form-data" ]}))
                 VUndefined (VURLSearchParams [("q", "x"); ("q", "y")])
                 None None None None None)
              [("q", "x"); ("q", "y")] None eq_refl)
    as (form & Hrun & _ & Hlookup).
  exists form. split; [exact Hrun|]. rewrite Hlookup. reflexivity.
Defined.

(** ** The content type in the axios-style body codec *)

Lemma transformData_generic (config : AxiosConfig) :
  Js.isNullish (cfg_data config) = false ->
  RequestUtils.isFormData (cfg_data config) = false ->
  RequestUtils.isURLSearchParams (cfg_data config) = false ->
  RequestUtils.transformData config =
  match
    (if RequestUtils.declares (RequestUtils.getContentType config)
          "application/x-www-form-urlencoded"
     then RequestUtils.urlencodedBody (cfg_data config) else None),
    (if RequestUtils.declares (RequestUtils.getContentType config)
          "multipart/form-data"
     then RequestUtils.multipartBody (cfg_data config) else None)
  with
  | Some r, _ => r
  | None, Some r => r
  | None, None => mkBody (Some (cfg_data config)) None None
  end.
Proof.
  unfold RequestUtils.transformData. intros Hn Hf Hq. rewrite Hn.
  destruct (cfg_data config); try discriminate; reflexivity.
Qed.

(** X10.  When the headers of the descriptor are a plain object (or are
    missing), the codec does not see a content type: every body that is
    not a [FormData] or a [URLSearchParams] is handed on as raw [data],
    also a string or an object under a url-encoded or multipart
    [Content-Type] entry. *)
Theorem plain_headers_give_raw_body (config : AxiosConfig) :
  (cfg_headers config = None \/
   exists e, cfg_headers config = Some (PlainHeaders e)) ->
  Js.isNullish (cfg_data config) = false ->
  RequestUtils.isFormData (cfg_data config) = false ->
  RequestUtils.isURLSearchParams (cfg_data config) = false ->
  RequestUtils.transformData config = mkBody (Some (cfg_data config)) None None.
Proof.
  intros Hh Hn Hf Hq. rewrite transformData_generic by assumption.
  assert (Hct : RequestUtils.getContentType config = None).
  { unfold RequestUtils.getContentType. destruct Hh as [-> | [e ->]]; reflexivity. }
  rewrite Hct. reflexivity.
Qed.

Lemma plain_headers_give_raw_body_witness :
  RequestUtils.transformData
    (mkConfig None None None
       (Some (PlainHeaders
          {[ "Content-Type" := VStr "application/x-www-form-urlencoded" ]}))
       VUndefined (VStr "a=1&b=2") None None None None None)
    = mkBody (Some (VStr "a=1&b=2")) None None.
Proof.
  apply (plain_headers_give_raw_body
           (mkConfig None None None
              (Some (PlainHeaders
                 {[ "Content-Type" := VStr "application/x-www-form-urlencoded" ]}))
              VUndefined (VStr "a=1&b=2") None None None None None)).
  - right. eexists. reflexivity.
  - reflexivity.
  - reflexivity.
  - reflexivity.
Defined.

(** X11.  Under a content type that declares a url-encoded form, a plain
    object becomes the [form] mapping of its properties that are neither
    [undefined] nor [null]: booleans and numbers are kept, other values
    are turned into strings; [data] and [multipart] stay unset. *)
Theorem urlencoded_object_is_flattened
    (config : AxiosConfig) (props : gmap string JsValue) :
  RequestUtils.declares (RequestUtils.getContentType config)
    "application/x-www-form-urlencoded" = true ->
  cfg_data config = VObject props ->
  exists form,
    RequestUtils.transformData config = mkBody None (Some form) None /\
    forall key,
      form !! key =
      match props !! key with
      | Some v => if Js.isNullish v then None else Some (RequestUtils.scalarOf v)
      | None => None
      end.
Proof.
  intros Hct Hd.
  rewrite transformData_generic by (rewrite Hd; reflexivity).
  rewrite Hct, Hd. simpl.
  eexists. split; [reflexivity|].
  intros key. apply (flattenEntries_object props key).
Qed.

Lemma urlencoded_object_is_flattened_witness :
  exists form,
    RequestUtils.transformData
      (mkConfig None None None
         (Some (AxiosHeaders
            {[ "content-type" := VStr "Application/X-WWW-Form-Urlencoded; charset=utf-8" ]}))
         VUndefined
         (VObject {[ "a" := VNum 1; "b" := VNull; "c" := VBool true; "d" := VObject ∅ ]})
         None None None None None)
      = mkBody None (Some form) None /\
    form !! "a" = Some (VNum 1) /\ form !! "b" = None /\
    form !! "c" = Some (VBool true) /\ form !! "d" = Some (VStr "[object Object]").
Proof.
  destruct (urlencoded_object_is_flattened
              (mkConfig None None None
                 (Some (AxiosHeaders
                    {[ "content-type" :=
                         VStr "Application/X-WWW-Form-Urlencoded; charset=utf-8" ]}))
                 VUndefined
                 (VObject {[ "a" := VNum 1; "b" := VNull; "c" := VBool true;
                             "d" := VObject ∅ ]})
                 None None None None None)
              {[ "a" := VNum 1; "b" := VNull; "c" := VBool true; "d" := VObject ∅ ]})
    as (form & Hrun & Hlookup).
  - vm_compute. reflexivity.
  - reflexivity.
  - exists form. split; [exact Hrun|].
    repeat split; rewrite Hlookup; reflexivity.
Defined.

(** X12.  A boolean or a number given as body is handed on as raw [data],
    whatever content type the headers declare. *)
Theorem scalar_body_is_raw (config : AxiosConfig) :
  (exists b, cfg_data config = VBool b) \/ (exists n, cfg_data config = VNum n) ->
  RequestUtils.transformData config = mkBody (Some (cfg_data config)) None None.
Proof.
  intros Hd.
  assert (Hshape : Js.isNullish (cfg_data config) = false /\
                   RequestUtils.isFormData (cfg_data config) = false /\
                   RequestUtils.isURLSearchParams (cfg_data config) = false /\
                   RequestUtils.urlencodedBody (cfg_data config) = None /\
                   RequestUtils.multipartBody (cfg_data config) = None).
  { destruct Hd as [[b ->] | [n ->]]; repeat split; reflexivity. }
  destruct Hshape as (Hn & Hf & Hq & Hu & Hm).
  rewrite transformData_generic by assumption.
  rewrite Hu, Hm.
  destruct (RequestUtils.declares _ "application/x-www-form-urlencoded");
    destruct (RequestUtils.declares _ "multipart/form-data"); reflexivity.
Qed.

Lemma scalar_body_is_raw_witness :
  RequestUtils.transformData
    (mkConfig None None None
       (Some (AxiosHeaders
          {[ "Content-Type" := VStr "application/x-www-form-urlencoded" ]}))
       VUndefined (VNum 42) None None None None None)
    = mkBody (Some (VNum 42)) None None.
Proof.
  apply (scalar_body_is_raw
           (mkConfig None None None
              (Some (AxiosHeaders
                 {[ "Content-Type" := VStr "application/x-www-form-urlencoded" ]}))
              VUndefined (VNum 42) None None None None None)).
  right. exists 42%Z. reflexivity.
Defined.

(** X13.  A string given as body is parsed as a query string into the
    [form] mapping when the content type declares a url-encoded form, and
    is handed on as raw [data] otherwise, also under a multipart content
    type: a string never becomes the [multipart] field. *)
Theorem string_body_by_content_type (config : AxiosConfig) (s : string) :
  cfg_data config = VStr s ->
  RequestUtils.transformData config =
  if RequestUtils.declares (RequestUtils.getContentType config)
       "application/x-www-form-urlencoded"
  then mkBody None (Some (VStr <$> Js.fromEntries (Js.parseQuery s))) None
  else mkBody (Some (VStr s)) None None.
Proof.
  intros Hd. rewrite transformData_generic by (rewrite Hd; reflexivity).
  rewrite Hd.
  destruct (RequestUtils.declares _ "application/x-www-form-urlencoded");
    [reflexivity|].
  destruct (RequestUtils.declares _ "multipart/form-data"); reflexivity.
Qed.

Lemma string_body_by_content_type_witness :
  RequestUtils.transformData
    (mkConfig None None None
       (Some (AxiosHeaders {[ "Content-Type" := VStr "multipart/form-data" ]}))
       VUndefined (VStr "a=1") None None None None None)
    = mkBody (Some (VStr "a=1")) None None.
Proof.
  rewrite (string_body_by_content_type
             (mkConfig None None None
                (Some (AxiosHeaders {[ "Content-Type" := VStr "multipart/form-data" ]}))
                VUndefined (VStr "a=1") None None None None None)
             "a=1" eq_refl).
  vm_compute. reflexivity.
Defined.

(** X14.  Under a content type that declares a multipart form and no
    url-encoded form, a body of object type that is not a native
    collection is handed on unchanged as the [multipart] field, with no
    conversion of its fields, unless it is a [Buffer], which is handed on
    as raw [data]. *)
Theorem multipart_object_passes_through (config : AxiosConfig) :
  RequestUtils.declares (RequestUtils.getContentType config)
    "application/x-www-form-urlencoded" = false ->
  RequestUtils.declares (RequestUtils.getContentType config)
    "multipart/form-data" = true ->
  Js.isObjectType (cfg_data config) = true ->
  Js.isNullish (cfg_data config) = false ->
  RequestUtils.isFormData (cfg_data config) = false ->
  RequestUtils.isURLSearchParams (cfg_data config) = false ->
  RequestUtils.transformData config =
  if Js.isBuffer (cfg_data config)
  then mkBody (Some (cfg_data config)) None None
  else mkBody None None (Some (cfg_data config)).
Proof.
  intros Hu Hm Hobj Hn Hf Hq.
  rewrite transformData_generic by assumption.
  rewrite Hu, Hm. unfold RequestUtils.multipartBody. rewrite Hobj.
  destruct (Js.isBuffer (cfg_data config)); reflexivity.
Qed.

Lemma multipart_object_passes_through_witness :
  RequestUtils.transformData
    (mkConfig None None None
       (Some (AxiosHeaders {[ "Content-Type" := VStr "multipart/form-data" ]}))
       VUndefined (VObject {[ "name" := VStr "John"; "age" := VNum 30 ]})
       None None None None None)
    = mkBody None None (Some (VObject {[ "name" := VStr "John"; "age" := VNum 30 ]})).
Proof.
  apply (multipart_object_passes_through
           (mkConfig None None None
              (Some (AxiosHeaders {[ "Content-Type" := VStr "multipart/form-data" ]}))
              VUndefined (VObject {[ "name" := VStr "John"; "age" := VNum 30 ]})
              None None None None None));
    vm_compute; reflexivity.
Defined.

(** ** The translated method and the policy knobs *)

Lemma upperChar_idempotent (c : ascii) :
  JsString.upperChar (JsString.upperChar c) = JsString.upperChar c.
Proof. destruct c as [[] [] [] [] [] [] [] []]; reflexivity. Qed.

Lemma toUpperCase_idempotent (s : string) :
  JsString.toUpperCase (JsString.toUpperCase s) = JsString.toUpperCase s.
Proof.
  unfold JsString.toUpperCase.
  induction s as [|c s IH]; [reflexivity|].
  simpl. rewrite upperChar_idempotent, IH. reflexivity.
Qed.

(** X15.  The method of the translated options is never empty and is in
    upper case: it is the upper-cased method of the descriptor, or "GET"
    when the descriptor has no method or an empty one. *)
Theorem translated_method_is_normalised
    (config : AxiosConfig) (adapterOptions : option PlaywrightAdapterOptions) :
  exists method,
    opt_method (RequestUtils.transformRequest config adapterOptions) = Some method /\
    method <> EmptyString /\
    JsString.toUpperCase method = method /\
    match cfg_method config with
    | Some (String c m) => method = JsString.toUpperCase (String c m)
    | _ => method = "GET"
    end.
Proof.
  eexists. split; [reflexivity|].
  destruct (cfg_method config) as [[|c m]|].
  - split; [discriminate | split; reflexivity].
  - change (JsString.orElse (JsString.toUpperCase (String c m)) "GET")
      with (JsString.toUpperCase (String c m)).
    split; [discriminate | split; [apply toUpperCase_idempotent | reflexivity]].
  - split; [discriminate | split; reflexivity].
Qed.

(** X16.  In the options that the axios-style adapter hands to the
    executor, the timeout is set exactly when the descriptor has a timeout
    above zero; [failOnStatusCode] is always set, to [false] unless the
    adapter options say otherwise; [maxRedirects] is that of the adapter
    options when they have one and that of the descriptor otherwise. *)
Theorem executor_policy_knobs
    (config : AxiosConfig) (adapterOptions : option PlaywrightAdapterOptions) :
  let bag := AxiosAdapter.executorOptions
               (RequestUtils.transformRequest config adapterOptions) in
  (forall t, opt_timeout bag = Some t <-> cfg_timeout config = Some t /\ (0 < t)%Z) /\
  opt_failOnStatusCode bag =
    Some (match adapterOptions ≫= ao_failOnStatusCode with
          | Some b => b
          | None => false
          end) /\
  opt_maxRedirects bag =
    match adapterOptions ≫= ao_maxRedirects with
    | Some n => Some n
    | None => cfg_maxRedirects config
    end.
Proof.
  simpl. split; [|split].
  - intros t. destruct (cfg_timeout config) as [t0|].
    + destruct (Z.ltb_spec 0 t0) as [Hpos|Hle]; split.
      * intros [= ->]. split; [reflexivity | exact Hpos].
      * intros [[= ->] _]. reflexivity.
      * discriminate.
      * intros [[= ->] Hpos]. lia.
    + split; [discriminate | intros [Hnone _]; discriminate].
  - destruct (adapterOptions ≫= ao_failOnStatusCode); reflexivity.
  - reflexivity.
Qed.

(** ** Calls and outcomes of the axios-style entry point *)

Lemma parseResponseBody_own_calls (response : APIResponse) (config : AxiosConfig) :
  onlyAccessors (snd (ResponseUtils.parseResponseBody response config [])) = true /\
  length (snd (ResponseUtils.parseResponseBody response config [])) <= 2.
Proof.
  destruct (jsonRepresentation config) eqn:Hj.
  - rewrite parseResponseBody_json by exact Hj.
    destruct (declaresJson response); [destruct (resp_json response)|];
      simpl; split; auto.
  - destruct (parseResponseBody_other response config [] Hj) as (ev & Hev & ->).
    simpl. rewrite Hev. split; auto.
Qed.

Lemma fetchCalls_accessors (accessors : list Event) :
  onlyAccessors accessors = true -> fetchCalls accessors = 0.
Proof.
  unfold onlyAccessors.
  induction accessors as [|ev rest IH]; [reflexivity|].
  simpl. intros H. apply andb_true_iff in H as [Hev Hrest].
  change (ev :: rest) with ([ev] ++ rest)%list.
  rewrite fetchCalls_app, (IH Hrest).
  destruct ev; try discriminate; reflexivity.
Qed.

Lemma onError_outcome (config : AxiosConfig) (error : Thrown) (trace : list Event) :
  exists error',
    AxiosAdapter.onError config error trace = (Rejected error', trace) /\
    isAxiosError error' = true.
Proof.
  unfold AxiosAdapter.onError.
  destruct (isAxiosError error) eqn:Hax.
  - exists error. split; [reflexivity | exact Hax].
  - eexists. split; reflexivity.
Qed.

(** After the executor has resolved, the rest of the [try] block and the
    [catch] block make the calls of the response translator and no other. *)
Lemma playwrightAdapter_after_dispatch
    (config : AxiosConfig) (response : APIResponse) (trace : list Event) :
  exists outcome,
    Async.tryCatch
      (Async.bind (ResponseUtils.transformResponse response config)
         (fun axiosResponse =>
            if AxiosAdapter.statusRejected config (ar_status axiosResponse)
            then Async.throw
                   (ThrownAxios
                      (newAxiosError
                         ("Request failed with status code " +:+
                          JsString.ofZ (ar_status axiosResponse))
                         ERR_BAD_REQUEST config (Some response)
                         (Some axiosResponse)))
            else Async.ret axiosResponse))
      (AxiosAdapter.onError config) trace =
    (outcome,
     (trace ++ snd (ResponseUtils.parseResponseBody response config []))%list) /\
    match outcome with
    | Rejected error => isAxiosError error = true
    | Resolved _ => True
    end.
Proof.
  unfold Async.tryCatch, Async.bind.
  rewrite transformResponse_frame, transformResponse_trace.
  destruct (decoded response config) as [r|e].
  - destruct (AxiosAdapter.statusRejected config (ar_status r)).
    + unfold Async.throw. simpl. eexists. split; reflexivity.
    + unfold Async.ret. eexists. split; [reflexivity | exact I].
  - destruct (onError_outcome config e
                (trace ++ snd (ResponseUtils.parseResponseBody response config [])))
      as (e' & -> & Hax).
    exists (Rejected e'). split; [reflexivity | exact Hax].
Qed.

(** X17.  One call of the axios-style adapter calls the executor at most
    once and never again: not at all when the signal is aborted, and
    otherwise exactly once, with the URL of [buildUrl] and the options of
    [transformRequest], before at most two body-accessor calls; this holds
    whether the call ends in a response or in an error (no retry). *)
Theorem adapter_calls_executor_once
    (requestContext : APIRequestContext) (options : option PlaywrightAdapterOptions)
    (config : AxiosConfig) (trace : list Event) :
  exists calls,
    snd (AxiosAdapter.playwrightAdapter requestContext options config trace)
      = (trace ++ calls)%list /\
    fetchCalls calls =
      (if AxiosAdapter.signalAborted (cfg_signal config) then 0 else 1) /\
    if AxiosAdapter.signalAborted (cfg_signal config) then calls = []
    else exists accessors,
      calls = EvFetch (RequestUtils.buildUrl config)
                (AxiosAdapter.executorOptions
                   (RequestUtils.transformRequest config options)) :: accessors /\
      onlyAccessors accessors = true /\ length accessors <= 2.
Proof.
  assert (Hcount : forall accessors url bag,
            onlyAccessors accessors = true ->
            fetchCalls (EvFetch url bag :: accessors) = 1).
  { intros accessors url bag Hacc.
    change (EvFetch url bag :: accessors) with ([EvFetch url bag] ++ accessors)%list.
    rewrite fetchCalls_app, (fetchCalls_accessors accessors Hacc). reflexivity. }
  destruct (AxiosAdapter.signalAborted (cfg_signal config)) eqn:Hsig.
  - exists []. unfold AxiosAdapter.playwrightAdapter. rewrite Hsig. simpl.
    rewrite app_nil_r. auto.
  - rewrite playwrightAdapter_dispatch by exact Hsig. cbv zeta.
    destruct (requestContext _ _) as [response|error].
    + destruct (playwrightAdapter_after_dispatch config response
                  (trace ++ [EvFetch (RequestUtils.buildUrl config)
                               (AxiosAdapter.executorOptions
                                  (RequestUtils.transformRequest config options))]))
        as (outcome & -> & _).
      destruct (parseResponseBody_own_calls response config) as [Hacc Hlen].
      eexists. split; [simpl; rewrite <- app_assoc; reflexivity|].
      split; [apply Hcount; exact Hacc|].
      eexists. split; [reflexivity|]. split; assumption.
    + destruct (onError_outcome config error
                  (trace ++ [EvFetch (RequestUtils.buildUrl config)
                               (AxiosAdapter.executorOptions
                                  (RequestUtils.transformRequest config options))]))
        as (e' & -> & _).
      eexists. split; [reflexivity|]. split; [reflexivity|].
      exists []. repeat split. simpl. lia.
Qed.



(** ** Calls and outcomes of the fetch-style entry point *)

Lemma playwrightFetch_dispatch
    (requestContext : APIRequestContext)
    (options : option FetchAdapter.PlaywrightFetchAdapterOptions)
    (input : FetchAdapter.FetchInput) (init : option FetchAdapter.RequestInit)
    (trace : list Event) :
  exists bag,
    opt_params bag = None /\ opt_failOnStatusCode bag = None /\
    FetchAdapter.playwrightFetch requestContext options input init trace =
    match requestContext (inputUrl input) bag with
    | Rejected error =>
        (Rejected error, (trace ++ [EvFetch (inputUrl input) bag])%list)
    | Resolved response =>
        FetchAdapter.toResponse response
          (trace ++ [EvFetch (inputUrl input) bag])%list
    end.
Proof.
  unfold FetchAdapter.playwrightFetch. run_async.
  assert (Hurl : match input with
                 | FetchAdapter.InputRequest request => FetchAdapter.req_url request
                 | FetchAdapter.InputString s => s
                 | FetchAdapter.InputURL href => href
                 end = inputUrl input) by (destruct input; reflexivity).
  rewrite Hurl.
  match goal with
  | |- context [requestContext (inputUrl input) ?b] => exists b
  end.
  split; [reflexivity|]. split; [reflexivity|].
  destruct (requestContext (inputUrl input) _) as [response|error]; [|reflexivity].
  unfold FetchAdapter.toResponse. run_async.
  destruct (resp_body response); reflexivity.
Qed.

Lemma toResponse_run (response : APIResponse) (trace : list Event) :
  FetchAdapter.toResponse response trace =
  (match resp_body response with
   | Resolved bytes =>
       Resolved
         (FetchAdapter.mkResponse bytes (resp_status response)
            (JsString.orElse (resp_statusText response)
               (getStatusText (resp_status response)))
            (resp_headers response))
   | Rejected error => Rejected error
   end, (trace ++ [EvBody])%list).
Proof.
  unfold FetchAdapter.toResponse. run_async.
  destruct (resp_body response); reflexivity.
Qed.

(** X19.  One call of the fetch-style entry point calls the executor
    exactly once, with the URL taken from the input (the string, the
    [href] of a [URL], the [url] of a [Request]) and with options that
    have neither [params] nor [failOnStatusCode]; after it only [body()]
    can be called, at most once. *)
Theorem fetch_calls_executor_once
    (requestContext : APIRequestContext)
    (options : option FetchAdapter.PlaywrightFetchAdapterOptions)
    (input : FetchAdapter.FetchInput) (init : option FetchAdapter.RequestInit)
    (trace : list Event) :
  exists bag accessors,
    snd (FetchAdapter.playwrightFetch requestContext options input init trace)
      = (trace ++ EvFetch (inputUrl input) bag :: accessors)%list /\
    (accessors = [] \/ accessors = [EvBody]) /\
    fetchCalls (snd (FetchAdapter.playwrightFetch requestContext options input init trace))
      = fetchCalls trace + 1 /\
    opt_params bag = None /\ opt_failOnStatusCode bag = None.
Proof.
  destruct (playwrightFetch_dispatch requestContext options input init trace)
    as (bag & Hparams & Hfail & ->).
  exists bag.
  destruct (requestContext (inputUrl input) bag) as [response|error].
  - exists [EvBody]. rewrite toResponse_run. simpl.
    split; [rewrite <- app_assoc; reflexivity|].
    split; [right; reflexivity|].
    split; [|split; assumption].
    rewrite !fetchCalls_app. unfold fetchCalls. simpl. lia.
  - exists []. simpl.
    split; [reflexivity|]. split; [left; reflexivity|].
    split; [|split; assumption].
    rewrite fetchCalls_app. reflexivity.
Qed.

(** X20.  The fetch-style entry point has no error mapping: when the
    executor rejects the call for the URL of the input, the entry point
    rejects with the same value, not wrapped, and no body accessor is
    called. *)
Theorem fetch_rejection_is_not_wrapped
    (requestContext : APIRequestContext)
    (options : option FetchAdapter.PlaywrightFetchAdapterOptions)
    (input : FetchAdapter.FetchInput) (init : option FetchAdapter.RequestInit)
    (trace : list Event) (error : Thrown) :
  (forall bag, requestContext (inputUrl input) bag = Rejected error) ->
  fst (FetchAdapter.playwrightFetch requestContext options input init trace)
    = Rejected error /\
  accessorCalls (snd (FetchAdapter.playwrightFetch requestContext options input init trace))
    = accessorCalls trace.
Proof.
  intros Hrej.
  destruct (playwrightFetch_dispatch requestContext options input init trace)
    as (bag & _ & _ & ->).
  rewrite Hrej. simpl. split; [reflexivity|].
  rewrite accessorCalls_app. apply Nat.add_0_r.
Qed.

Lemma fetch_rejection_is_not_wrapped_witness :
  fst (FetchAdapter.playwrightFetch
         (Samples.failing (ThrownError "Error" (Some "connect ECONNREFUSED"))) None
         (FetchAdapter.InputString "https://api.example.com/users") None [])
    = Rejected (ThrownError "Error" (Some "connect ECONNREFUSED")).
Proof.
  apply (fetch_rejection_is_not_wrapped
           (Samples.failing (ThrownError "Error" (Some "connect ECONNREFUSED"))) None
           (FetchAdapter.InputString "https://api.example.com/users") None []
           (ThrownError "Error" (Some "connect ECONNREFUSED"))).
  reflexivity.
Defined.



(** ** Headers and body of the fetch-style entry point *)

(** X22.  The headers that the fetch-style entry point hands on are those
    of the init options when it has some, and otherwise those of the
    [Request] input (never a merge of the two); from a [Headers] instance,
    an array of pairs or the headers of a [Request], the value of a name
    is that of the last pair with the name.  They are [undefined] only
    when the init options have no headers and the input is not a
    [Request]. *)
Theorem fetch_headers_translated
    (input : FetchAdapter.FetchInput) (init : option FetchAdapter.RequestInit)
    (key : string) :
  (FetchAdapter.transformHeaders (FetchAdapter.chooseHeaders input init)
     ≫= fun h => h !! key) =
    match init ≫= FetchAdapter.init_headers with
    | Some (FetchAdapter.HeadersInstance entries) => lastValue key entries
    | Some (FetchAdapter.HeadersArray pairs) => lastValue key pairs
    | Some (FetchAdapter.HeadersRecord record) => record !! key
    | None =>
        match input with
        | FetchAdapter.InputRequest request =>
            lastValue key (FetchAdapter.req_headers request)
        | _ => None
        end
    end /\
  (FetchAdapter.transformHeaders (FetchAdapter.chooseHeaders input init) = None <->
   init ≫= FetchAdapter.init_headers = None /\
   forall request, input <> FetchAdapter.InputRequest request).
Proof.
  unfold FetchAdapter.chooseHeaders.
  destruct (init ≫= FetchAdapter.init_headers) as [[entries|pairs|record]|]; simpl.
  - split; [exact (fromEntries_lookup entries key) | split].
    + discriminate.
    + intros [Hnone _]. discriminate.
  - split; [exact (fromEntries_lookup pairs key) | split].
    + discriminate.
    + intros [Hnone _]. discriminate.
  - split; [reflexivity | split].
    + discriminate.
    + intros [Hnone _]. discriminate.
  - destruct input as [url|href|request]; simpl.
    + split; [reflexivity | split; [intros _; split; [reflexivity | discriminate] | reflexivity]].
    + split; [reflexivity | split; [intros _; split; [reflexivity | discriminate] | reflexivity]].
    + split; [apply fromEntries_lookup | split].
      * discriminate.
      * intros [_ Hnot]. exfalso. apply (Hnot request). reflexivity.
Qed.

(** X23.  The fetch-style codec hands on as raw [data] every body that is
    not [null], [undefined], a [FormData], a [URLSearchParams] or a
    string, whatever the headers declare: an object is not flattened into
    a form and never becomes the [multipart] field. *)
Theorem fetch_body_objects_are_raw
    (body : JsValue) (headers : option (gmap string string)) :
  Js.isNullish body = false ->
  RequestUtils.isFormData body = false ->
  RequestUtils.isURLSearchParams body = false ->
  Js.typeOf body <> TString ->
  FetchAdapter.transformBody body headers = mkBody (Some body) None None.
Proof.
  intros Hn Hf Hq Hs. unfold FetchAdapter.transformBody.
  destruct body; try discriminate; try reflexivity.
  exfalso. apply Hs. reflexivity.
Qed.

Lemma fetch_body_objects_are_raw_witness :
  FetchAdapter.transformBody (VObject {[ "a" := VNum 1 ]})
    (Some {[ "content-type" := "application/x-www-form-urlencoded" ]})
    = mkBody (Some (VObject {[ "a" := VNum 1 ]})) None None.
Proof.
  apply (fetch_body_objects_are_raw (VObject {[ "a" := VNum 1 ]})
           (Some {[ "content-type" := "application/x-www-form-urlencoded" ]}));
    [reflexivity | reflexivity | reflexivity | discriminate].
Defined.

Lemma nonEmpty_toLowerCase (s : string) :
  JsString.nonEmpty (JsString.toLowerCase s) = JsString.nonEmpty s.
Proof. destruct s; reflexivity. Qed.

(** X24.  For a string body the fetch-style codec reads the content type
    under the name [content-type] and, when there is none or it is empty,
    under the name [Content-Type], and under no other spelling.  The
    string is parsed into the [form] mapping when that value, in lower
    case, contains [application/x-www-form-urlencoded]; otherwise, and
    without headers, it is handed on as raw [data]. *)
Theorem fetch_string_body_by_content_type
    (s : string) (headers : option (gmap string string)) :
  FetchAdapter.transformBody (VStr s) headers =
  let contentType :=
    match headers with
    | Some h =>
        match h !! "content-type" with
        | Some (String c v) => Some (String c v)
        | _ => h !! "Content-Type"
        end
    | None => None
    end in
  match contentType with
  | Some value =>
      if JsString.includes "application/x-www-form-urlencoded"
           (JsString.toLowerCase value)
      then mkBody None (Some (VStr <$> Js.fromEntries (Js.parseQuery s))) None
      else mkBody (Some (VStr s)) None None
  | None => mkBody (Some (VStr s)) None None
  end.
Proof.
  unfold FetchAdapter.transformBody, FetchAdapter.orUndefined,
    FetchAdapter.lowerHeader, RequestUtils.declares.
  cbn [Js.isNullish].
  destruct headers as [h|]; [|reflexivity]. cbn [mbind option_bind fmap option_fmap option_map].
  destruct (h !! "content-type") as [[|c v]|]; cbn [mbind option_bind fmap option_fmap option_map].
  - change (JsString.nonEmpty (JsString.toLowerCase EmptyString)) with false. cbv iota.
    destruct (h !! "Content-Type"); reflexivity.
  - change (JsString.nonEmpty (JsString.toLowerCase (String c v))) with true. cbv iota.
    reflexivity.
  - destruct (h !! "Content-Type"); reflexivity.
Qed.

(** ** Representations of the response body *)

Lemma responseTypeOf_given (config : AxiosConfig) (c : ascii) (t : string) :
  cfg_responseType config = Some (String c t) ->
  ResponseUtils.responseTypeOf config = String c t.
Proof. unfold ResponseUtils.responseTypeOf. intros ->. reflexivity. Qed.

(** X25.  With the representation "text" the translator calls [text()],
    and only it, and resolves with the raw text, also when the content
    type declares JSON; it rejects only when [text()] does. *)
Theorem text_representation_reads_text
    (response : APIResponse) (config : AxiosConfig) (trace : list Event) :
  cfg_responseType config = Some "text" ->
  ResponseUtils.parseResponseBody response config trace =
    (match resp_text response with
     | Resolved text => Resolved (VStr text)
     | Rejected error => Rejected error
     end, (trace ++ [EvText])%list).
Proof.
  intros Ht. unfold ResponseUtils.parseResponseBody.
  rewrite (responseTypeOf_given config _ _ Ht). simpl. run_async.
  destruct (resp_text response); reflexivity.
Qed.

Lemma text_representation_reads_text_witness :
  ResponseUtils.parseResponseBody Samples.okResponse
    (mkConfig None None None None VUndefined VUndefined None None
       (Some "text") None None) []
    = (Resolved (VStr "{}"), [EvText]).
Proof.
  apply (text_representation_reads_text Samples.okResponse
           (mkConfig None None None None VUndefined VUndefined None None
              (Some "text") None None) []).
  reflexivity.
Defined.



(** X27.  With the representation "json" (also when none is asked for)
    and a content type that declares JSON, the translator resolves with
    the value that [json()] resolves with and calls no other accessor. *)
Theorem json_representation_parses
    (response : APIResponse) (config : AxiosConfig) (trace : list Event)
    (value : JsValue) :
  jsonRepresentation config = true ->
  declaresJson response = true ->
  resp_json response = Resolved value ->
  ResponseUtils.parseResponseBody response config trace =
    (Resolved value, (trace ++ [EvJson])%list).
Proof.
  intros Hrep Hct Hjson.
  rewrite parseResponseBody_json by exact Hrep.
  rewrite Hct, Hjson. reflexivity.
Qed.

Lemma json_representation_parses_witness :
  ResponseUtils.parseResponseBody Samples.okResponse Samples.emptyConfig []
    = (Resolved (VObject ∅), [EvJson]).
Proof.
  apply (json_representation_parses Samples.okResponse Samples.emptyConfig []
           (VObject ∅));
    reflexivity.
Defined.

(** ** Form collections *)

(** X28.  From a [FormData] body the fetch-style codec builds a
    [multipart] mapping that has, for every name, the entry of the last
    field with that name: a string field as it is, a file-like field as
    a descriptor with the file name (or "blob" for a value without one),
    the type of the value (or "application/octet-stream" when it is
    empty) and the value itself as buffer. *)
Theorem fetch_form_collection_fields
    (entries : list (string * FormDataEntryValue))
    (headers : option (gmap string string)) (key : string) :
  body_data (FetchAdapter.transformBody (VFormData entries) headers) = None /\
  body_form (FetchAdapter.transformBody (VFormData entries) headers) = None /\
  multipartOf (FetchAdapter.transformBody (VFormData entries) headers) !! key =
  match lastValue key entries with
  | Some (FDBlob b) =>
      Some (fileDescriptor
              (match blob_name b with Some name => name | None => "blob" end)
              (match blob_type b with
               | EmptyString => "application/octet-stream"
               | type => type
               end)
              b)
  | Some (FDString s) => Some (VStr s)
  | None => None
  end.
Proof.
  split; [reflexivity|]. split; [reflexivity|].
  apply fetch_multipart_fields.
Qed.

(** X29.  From a [FormData] body the axios-style codec builds a
    [multipart] mapping that has, for every name, the entry of the last
    field with that name: a string field as it is, a file-like field as
    a descriptor with the file name (or "blob" for a value without one),
    the type of the value as it is and the value itself as buffer;
    whatever content type the headers declare. *)
Theorem axios_form_collection_fields (config : AxiosConfig)
    (entries : list (string * FormDataEntryValue)) (key : string) :
  cfg_data config = VFormData entries ->
  body_data (RequestUtils.transformData config) = None /\
  body_form (RequestUtils.transformData config) = None /\
  multipartOf (RequestUtils.transformData config) !! key =
  match lastValue key entries with
  | Some (FDBlob b) =>
      Some (fileDescriptor
              (match blob_name b with Some name => name | None => "blob" end)
              (blob_type b)
              b)
  | Some (FDString s) => Some (VStr s)
  | None => None
  end.
Proof.
  intros Hd.
  split; [|split; [|apply (axios_multipart_fields config entries key Hd)]];
    unfold RequestUtils.transformData; rewrite Hd; reflexivity.
Qed.

Lemma axios_form_collection_fields_witness :
  multipartOf
    (RequestUtils.transformData
       (Samples.withData
          (VFormData
             [("file", FDString "old");
              ("file", FDBlob (mkBlob (Some "a.txt") "text/plain" (Samples.bytesOf "hi")))])))
    !! "file"
  = Some (fileDescriptor "a.txt" "text/plain"
            (mkBlob (Some "a.txt") "text/plain" (Samples.bytesOf "hi"))).
Proof.
  apply (axios_form_collection_fields
           (Samples.withData
              (VFormData
                 [("file", FDString "old");
                  ("file", FDBlob (mkBlob (Some "a.txt") "text/plain"
                                     (Samples.bytesOf "hi")))]))
           [("file", FDString "old");
            ("file", FDBlob (mkBlob (Some "a.txt") "text/plain" (Samples.bytesOf "hi")))]
           "file").
  reflexivity.
Defined.

(** ** Plain-object query parameters *)

(** X30.  When the query parameters are a plain object, the translated
    parameters are its properties that are neither [undefined] nor
    [null], booleans and numbers kept and other values turned into
    strings; when no property is left the result is [undefined], never an
    empty mapping. *)
Theorem plain_object_params_translated
    (config : AxiosConfig) (props : gmap string JsValue) :
  cfg_params config = VObject props ->
  match RequestUtils.transformParams config with
  | Some params =>
      params <> ∅ /\
      forall key, params !! key =
        match props !! key with
        | Some (VBool b) => Some (VBool b)
        | Some (VNum n) => Some (VNum n)
        | Some VUndefined | Some VNull | None => None
        | Some v => Some (VStr (Js.toString v))
        end
  | None =>
      forall key v, props !! key = Some v -> v = VUndefined \/ v = VNull
  end.
Proof.
  intros Hp. pose proof (transformParams_plain_object config props Hp) as H.
  destruct (RequestUtils.transformParams config) as [params|].
  - destruct H as [Hne Hlookup]. split; [exact Hne|].
    intros key. rewrite Hlookup.
    destruct (props !! key) as [v|]; [destruct v|]; reflexivity.
  - intros key v Hkv. specialize (H key v Hkv).
    destruct v; try discriminate; auto.
Qed.

Lemma plain_object_params_translated_witness :
  match RequestUtils.transformParams
          (Samples.withParams
             (VObject {[ "page" := VNum 1; "q" := VStr "x"; "skip" := VNull ]})) with
  | Some params =>
      params !! "page" = Some (VNum 1) /\ params !! "q" = Some (VStr "x") /\
      params !! "skip" = None
  | None => False
  end.
Proof.
  pose proof (plain_object_params_translated
                (Samples.withParams
                   (VObject {[ "page" := VNum 1; "q" := VStr "x"; "skip" := VNull ]}))
                {[ "page" := VNum 1; "q" := VStr "x"; "skip" := VNull ]} eq_refl) as H.
  destruct (RequestUtils.transformParams _) as [params|] eqn:Hrun.
  - destruct H as [_ Hlookup]. repeat split; rewrite Hlookup; reflexivity.
  - vm_compute in Hrun. discriminate.
Defined.
